(** * AimManager: identity-keyed resource persistence and commit notification

    A shallow embedding of [aim/aim_manager.py].  Python dictionaries are
    finite maps, the ORM session is an explicit state threaded through a small
    state-and-exception monad, and objects that the session tracks are
    addressed by their position in the session, so that in-place updates of a
    record are seen by every later reader of the session. *)

From Stdlib Require Import ZArith.
From stdpp Require Import gmap strings list fin_maps.

#[local] Set Warnings "-clear-no-such-hyp".

(** ** Python values and classes *)

Inductive value :=
  | VNone
  | VBool (b : bool)
  | VInt (z : Z)
  | VStr (s : string).

#[global] Instance value_eq_dec : EqDecision value.
Proof. solve_decision. Defined.

(** A resource class of [aim.api.resource]: its name and the two class
    attributes the manager reads, [identity_attributes] and
    [other_attributes]. *)
Record ResourceClass := {
  cls_name : string;
  identity_attributes : list string;
  other_attributes : list string
}.

#[global] Instance ResourceClass_eq_dec : EqDecision ResourceClass.
Proof. solve_decision. Defined.

#[global] Instance ResourceClass_countable : Countable ResourceClass.
Proof.
  refine (inj_countable'
    (fun c => (cls_name c, identity_attributes c, other_attributes c))
    (fun t => {| cls_name := t.1.1; identity_attributes := t.1.2;
                 other_attributes := t.2 |}) _).
  by intros [].
Defined.

(** A resource instance: its class and its instance attributes. *)
Record Resource := {
  res_type : ResourceClass;
  res_dict : gmap string value
}.

#[global] Instance Resource_eq_dec : EqDecision Resource.
Proof. solve_decision. Defined.

(** A model class of [aim.db.models]: the table and its primary key, on which
    the storage engine enforces uniqueness. *)
Record DbClass := {
  tablename : string;
  primary_key : list string
}.

#[global] Instance DbClass_eq_dec : EqDecision DbClass.
Proof. solve_decision. Defined.

#[global] Instance DbClass_countable : Countable DbClass.
Proof.
  refine (inj_countable'
    (fun c => (tablename c, primary_key c))
    (fun t => {| tablename := t.1; primary_key := t.2 |}) _).
  by intros [].
Defined.

(** A record of the backing store: its model class and its column values. *)
Record DbObj := {
  db_type : DbClass;
  db_cols : gmap string value
}.

#[global] Instance DbObj_eq_dec : EqDecision DbObj.
Proof. solve_decision. Defined.

(** Modelled from the spec: [from_attr] of the model classes ([aim.db.models]
    is not part of the sources at hand) writes the given attribute values
    onto the record in place. *)
Definition from_attr (attr_val : gmap string value) (o : DbObj) : DbObj :=
  {| db_type := db_type o; db_cols := attr_val ∪ db_cols o |}.

(** Modelled from the spec: [to_attr] of the model classes returns the full
    stored attribute set of the record. *)
Definition to_attr (o : DbObj) : gmap string value := db_cols o.

(** A column that was never written reads as [None]. *)
Definition column (o : DbObj) (k : string) : value :=
  default VNone (db_cols o !! k).

(** ** Exceptions and the state-and-exception monad *)

Inductive sa_error :=
  | IntegrityError
  | OperationalError.

Inductive exn :=
  | UnknownResourceType (type : ResourceClass)
  | AttributeError (name : string)
  | KeyError (key : ResourceClass)
  | ValueError
  | TypeError
  | DBError (e : sa_error).

#[global] Instance sa_error_eq_dec : EqDecision sa_error.
Proof. solve_decision. Defined.

#[global] Instance exn_eq_dec : EqDecision exn.
Proof. solve_decision. Defined.

Inductive result (A : Type) :=
  | Ok (a : A)
  | Raise (e : exn).

Arguments Ok {A} a.
Arguments Raise {A} e.

(** ** The session of the storage engine

    The storage engine is outside the manager.  Its session is modelled with
    the primitives the manager calls: [begin], [query ... filter_by ... first]
    and [all], [add], [delete], and the [before_flush] event with [contains]
    and [listen].  Changes are staged in the session and stay visible to its
    later queries; the session's flush fires the [before_flush] listeners and
    then makes the staged changes durable.

    The session flushes when the program leaves a block
    [with session.begin(subtransactions=True)].  The operations [create],
    [update] and [delete] below are the bodies of their blocks, and what they
    return is the session at the end of the block; [call_and_leave] adds the
    flush on leaving it.  A query reads the records of the session as they
    are: the flush that the engine makes before a query when other users of
    the session have staged records in it is not part of the model, and
    values are compared as they are built, a boolean never being equal to a
    number. *)

(** An object tracked by the session, with the session's change tracking:
    [t_new] is membership in [session.new], [t_deleted] in [session.deleted],
    and a persistent object with [t_modified] set is in [session.dirty]. *)
Record Tracked := {
  t_obj : DbObj;
  t_new : bool;
  t_modified : bool;
  t_deleted : bool
}.

(** Listeners of the session's [before_flush] event: the bound method
    [_before_session_commit] of the manager, or a listener of some other user
    of the session. *)
Inductive hook :=
  | AimHook
  | ForeignHook (n : nat).

#[global] Instance hook_eq_dec : EqDecision hook.
Proof. solve_decision. Defined.

(** The primitives of the session, as recorded in its call history. *)
Inductive sa_call :=
  | SaBegin
  | SaQuery (c : DbClass) (kw : gmap string value)
  | SaAdd
  | SaDelete
  | SaListen.

Record Session := {
  connected : bool;
  objects : list Tracked;
  before_flush : list hook;
  history : list sa_call
}.

Definition M (A : Type) : Type := Session -> result (A * Session).

Definition ret {A} (a : A) : M A := fun s => Ok (a, s).

Definition bind {A B} (m : M A) (f : A -> M B) : M B :=
  fun s =>
    match m s with
    | Ok (a, s') => f a s'
    | Raise e => Raise e
    end.

Notation "'let*' x ':=' m 'in' k" := (bind m (fun x => k))
  (at level 10, x name, m at level 200, k at level 200,
   format "'[v' 'let*'  x  :=  m  'in' '/' k ']'").

Definition record_call (c : sa_call) : M unit :=
  fun s => Ok (tt, {| connected := connected s; objects := objects s;
                      before_flush := before_flush s;
                      history := history s ++ [c] |}).

Definition set_objects (f : list Tracked -> list Tracked) : M unit :=
  fun s => Ok (tt, {| connected := connected s; objects := f (objects s);
                      before_flush := before_flush s;
                      history := history s |}).

(** [session.new], [session.dirty] and [session.deleted]. *)
Definition session_new (s : Session) : list DbObj :=
  t_obj <$> filter (fun t => t_new t = true) (objects s).

Definition session_dirty (s : Session) : list DbObj :=
  t_obj <$> filter (fun t => t_new t = false /\ t_modified t = true
                             /\ t_deleted t = false) (objects s).

Definition session_deleted (s : Session) : list DbObj :=
  t_obj <$> filter (fun t => t_deleted t = true) (objects s).

(** [session.begin(subtransactions=True)]: the block runs inside the
    transaction already open on the session. *)
Definition sa_begin : M unit := record_call SaBegin.

(** A row is seen by [query(db_cls).filter_by] with keyword arguments [kw] when it is of the
    class, not deleted, and equal to every given value. *)
Definition row_matches (c : DbClass) (kw : gmap string value) (t : Tracked)
  : Prop :=
  db_type (t_obj t) = c /\ t_deleted t = false
  /\ map_Forall (fun k v => column (t_obj t) k = v) kw.

#[global] Instance row_matches_dec c kw t : Decision (row_matches c kw t).
Proof. unfold row_matches. apply _. Defined.

Definition sa_query (c : DbClass) (kw : gmap string value) : M unit :=
  fun s => if connected s then record_call (SaQuery c kw) s
           else Raise (DBError OperationalError).

(** [.first()]: a reference to the first matching object, or [None]. *)
Definition sa_first (c : DbClass) (kw : gmap string value) : M (option nat) :=
  let* _ := sa_query c kw in
  fun s => Ok (fst <$> list_find (row_matches c kw) (objects s), s).

(** [.all()]: the matching objects, in storage order. *)
Definition sa_all (c : DbClass) (kw : gmap string value) : M (list DbObj) :=
  let* _ := sa_query c kw in
  fun s => Ok (t_obj <$> filter (row_matches c kw) (objects s), s).

(** An object in the hands of the manager: a reference to an object of the
    session, or an object built by [_make_db_obj] and not yet added. *)
Inductive db_ref :=
  | InSession (i : nat)
  | Fresh (o : DbObj).

Definition read_ref (r : db_ref) : M DbObj :=
  match r with
  | Fresh o => ret o
  | InSession i =>
      fun s => match objects s !! i with
               | Some t => Ok (t_obj t, s)
               | None => Raise (DBError OperationalError)
               end
  end.

(** [db_obj.from_attr(attr_val)] on an object of the session: the object is
    updated in place, and setting any attribute marks it as modified. *)
Definition touch (attr_val : gmap string value) (t : Tracked) : Tracked :=
  {| t_obj := from_attr attr_val (t_obj t);
     t_new := t_new t;
     t_modified := t_modified t || negb (bool_decide (attr_val = ∅));
     t_deleted := t_deleted t |}.

Definition ref_from_attr (r : db_ref) (attr_val : gmap string value)
  : M db_ref :=
  match r with
  | Fresh o => ret (Fresh (from_attr attr_val o))
  | InSession i => let* _ := set_objects (alter (touch attr_val) i) in ret r
  end.

(** Two rows of one table with the same primary key violate its uniqueness
    constraint. *)
Definition same_key (o : DbObj) (t : Tracked) : Prop :=
  db_type (t_obj t) = db_type o /\ t_deleted t = false
  /\ Forall (fun k => column (t_obj t) k = column o k) (primary_key (db_type o)).

#[global] Instance same_key_dec o t : Decision (same_key o t).
Proof. unfold same_key. apply _. Defined.

(** [session.add(db_obj)]: an object of the session stays where it is; a new
    object becomes pending, unless it violates the uniqueness constraint. *)
Definition sa_add (r : db_ref) : M unit :=
  let* _ := record_call SaAdd in
  match r with
  | InSession _ => ret tt
  | Fresh o =>
      fun s =>
        if decide (Exists (same_key o) (objects s))
        then Raise (DBError IntegrityError)
        else set_objects (fun l => l ++ [{| t_obj := o; t_new := true;
                                           t_modified := false;
                                           t_deleted := false |}]) s
  end.

Definition mark_deleted (t : Tracked) : Tracked :=
  {| t_obj := t_obj t; t_new := t_new t; t_modified := t_modified t;
     t_deleted := true |}.

(** [session.delete(db_obj)]. *)
Definition sa_delete (r : db_ref) : M unit :=
  let* _ := record_call SaDelete in
  match r with
  | InSession i => set_objects (alter mark_deleted i)
  | Fresh _ => ret tt
  end.

(** [sa_event.contains(session, 'before_flush', fn)]. *)
Definition sa_event_contains (h : hook) : M bool :=
  fun s => Ok (bool_decide (h ∈ before_flush s), s).

(** [sa_event.listen(session, 'before_flush', fn)]. *)
Definition sa_event_listen (h : hook) : M unit :=
  let* _ := record_call SaListen in
  fun s => Ok (tt, {| connected := connected s; objects := objects s;
                      before_flush := before_flush s ++ [h];
                      history := history s |}).

(** [query(db_cls).filter_by] with its keyword arguments: the query object. *)
Record Query := {
  q_cls : DbClass;
  q_filter : gmap string value
}.

(** ** The manager *)

(** Listeners are Python callables, told apart by their name. *)
Record AimManager := {
  _db_model_map : gmap ResourceClass DbClass;
  _resource_map : gmap DbClass ResourceClass;
  _update_listeners : list string
}.

(** [AimManager.__init__]: the inverse of the class attribute
    [_db_model_map] and an empty list of listeners. *)
Definition AimManager_init (db_model_map : gmap ResourceClass DbClass)
  : AimManager :=
  {| _db_model_map := db_model_map;
     _resource_map := map_fold (fun k v acc => <[v:=k]> acc) ∅ db_model_map;
     _update_listeners := [] |}.

(** The class attribute [_db_model_map] of [AimManager], for the declarations
    of [api_res.BridgeDomain] and [models.BridgeDomain]. *)
Definition AimManager_db_model_map (api_res_BridgeDomain : ResourceClass)
  (models_BridgeDomain : DbClass) : gmap ResourceClass DbClass :=
  {[ api_res_BridgeDomain := models_BridgeDomain ]}.

(** The argument of [_validate_resource_class] is a class or an instance. *)
Inductive resource_or_class :=
  | AClass (c : ResourceClass)
  | AnInstance (r : Resource).

Definition lift {A} (r : result A) : M A :=
  fun s => match r with Ok a => Ok (a, s) | Raise e => Raise e end.

Definition _validate_resource_class (self : AimManager)
  (arg : resource_or_class) : result DbClass :=
  let res_cls := match arg with
                 | AClass c => c
                 | AnInstance r => res_type r
                 end in
  match _db_model_map self !! res_cls with
  | Some db_cls => Ok db_cls
  | None => Raise (UnknownResourceType res_cls)
  end.

(** [getattr(resource, k)] and [getattr(resource, k, None)]. *)
Definition getattr (resource : Resource) (k : string) : result value :=
  match res_dict resource !! k with
  | Some v => Ok v
  | None => Raise (AttributeError k)
  end.

Definition getattr_default (resource : Resource) (k : string) (d : value)
  : value :=
  default d (res_dict resource !! k).

(** [{k: getattr(resource, k) for k in ks}], added to [acc]. *)
Fixpoint getattr_dict (resource : Resource) (ks : list string)
  (acc : gmap string value) : result (gmap string value) :=
  match ks with
  | [] => Ok acc
  | k :: ks' =>
      match getattr resource k with
      | Ok v => getattr_dict resource ks' (<[k:=v]> acc)
      | Raise e => Raise e
      end
  end.

(** [{k: getattr(resource, k, None) for k in ks}]. *)
Definition getattr_default_dict (resource : Resource) (ks : list string)
  : gmap string value :=
  foldl (fun acc k => <[k:=getattr_default resource k VNone]> acc) ∅ ks.

(** [not attr_type or attr_type == name]. *)
Definition selects (attr_type : option string) (name : string) : bool :=
  match attr_type with
  | None => true
  | Some t => bool_decide (t = EmptyString) || bool_decide (t = name)
  end.

Definition _extract_attributes (resource : Resource)
  (attr_type : option string) : result (gmap string value) :=
  let val := ∅ in
  match (if selects attr_type "id"
         then match getattr_dict resource
                      (identity_attributes (res_type resource)) ∅ with
              | Ok d => Ok (d ∪ val)
              | Raise e => Raise e
              end
         else Ok val) with
  | Raise e => Raise e
  | Ok val =>
      if selects attr_type "other"
      then Ok (getattr_default_dict resource
                 (other_attributes (res_type resource)) ∪ val)
      else Ok val
  end.

Definition _query_db (self : AimManager) (resource_class : ResourceClass)
  (kwargs : gmap string value) : result Query :=
  match _db_model_map self !! resource_class with
  | Some db_cls => Ok {| q_cls := db_cls; q_filter := kwargs |}
  | None => Raise (KeyError resource_class)
  end.

(** [.first()] and [.all()] of a query object. *)
Definition q_first (q : Query) : M (option nat) := sa_first (q_cls q) (q_filter q).

Definition q_all (q : Query) : M (list DbObj) := sa_all (q_cls q) (q_filter q).

Definition _query_db_obj (self : AimManager) (resource : Resource)
  : M (option nat) :=
  let* id_attr := lift (_extract_attributes resource (Some "id")) in
  let cls := res_type resource in
  let* q := lift (_query_db self cls id_attr) in
  q_first q.

Definition _make_db_obj (self : AimManager) (resource : Resource)
  : result DbObj :=
  match _db_model_map self !! res_type resource with
  | None => Raise TypeError
  | Some cls =>
      let obj := {| db_type := cls; db_cols := ∅ |} in
      match _extract_attributes resource None with
      | Ok attr_val => Ok (from_attr attr_val obj)
      | Raise e => Raise e
      end
  end.

(** Modelled from the spec: the constructor of a resource class
    ([aim.api.resource] is not part of the sources at hand) builds the
    instance from the keyword arguments it is given. *)
Definition new_resource (cls : ResourceClass) (kwargs : gmap string value)
  : Resource :=
  {| res_type := cls; res_dict := kwargs |}.

Definition _make_resource (cls : ResourceClass) (db_obj : DbObj) : Resource :=
  let attr_val :=
    filter (fun kv => kv.1 ∈ other_attributes cls ++ identity_attributes cls)
           (to_attr db_obj) in
  new_resource cls attr_val.

Definition _add_commit_hook : M unit :=
  let* attached := sa_event_contains AimHook in
  if negb attached then sa_event_listen AimHook else ret tt.

(** *** The public operations

    The state of the monad is [context.db_session]. *)

Definition create (self : AimManager) (resource : Resource) (overwrite : bool)
  : M unit :=
  let* _ := lift (_validate_resource_class self (AnInstance resource)) in
  let* _ := sa_begin in
  let* db_obj :=
    (if overwrite
     then
       let* db_obj := _query_db_obj self resource in
       match db_obj with
       | Some i =>
           let* attr_val := lift (_extract_attributes resource (Some "other")) in
           let* r := ref_from_attr (InSession i) attr_val in
           ret (Some r)
       | None => ret None
       end
     else ret None) in
  let* db_obj :=
    match db_obj with
    | Some r => ret r
    | None => let* o := lift (_make_db_obj self resource) in ret (Fresh o)
    end in
  let* _ := sa_add db_obj in
  _add_commit_hook.

Definition update (self : AimManager) (resource : Resource)
  (update_attr_val : gmap string value) : M unit :=
  let* _ := lift (_validate_resource_class self (AnInstance resource)) in
  if bool_decide (update_attr_val = ∅) then ret tt
  else
    let* _ := sa_begin in
    let* db_obj := _query_db_obj self resource in
    match db_obj with
    | Some i =>
        let attr_val :=
          filter (fun kv => kv.1 ∈ other_attributes (res_type resource))
                 update_attr_val in
        let* r := ref_from_attr (InSession i) attr_val in
        let* _ := sa_add r in
        _add_commit_hook
    | None => ret tt
    end.

Definition delete (self : AimManager) (resource : Resource) : M unit :=
  let* _ := lift (_validate_resource_class self (AnInstance resource)) in
  let* _ := sa_begin in
  let* db_obj := _query_db_obj self resource in
  match db_obj with
  | Some i =>
      let* _ := sa_delete (InSession i) in
      _add_commit_hook
  | None => ret tt
  end.

Definition get (self : AimManager) (resource : Resource)
  : M (option Resource) :=
  let* _ := lift (_validate_resource_class self (AnInstance resource)) in
  let* db_obj := _query_db_obj self resource in
  match db_obj with
  | Some i =>
      let* o := read_ref (InSession i) in
      ret (Some (_make_resource (res_type resource) o))
  | None => ret None
  end.

Definition find (self : AimManager) (resource_class : ResourceClass)
  (kwargs : gmap string value) : M (list Resource) :=
  let* _ := lift (_validate_resource_class self (AClass resource_class)) in
  let attr_val :=
    filter (fun kv => kv.1 ∈ other_attributes resource_class
                             ++ identity_attributes resource_class)
           kwargs in
  let* q := lift (_query_db self resource_class attr_val) in
  let* objs := q_all q in
  ret (_make_resource resource_class <$> objs).

Definition register_update_listener (self : AimManager) (func : string)
  : AimManager :=
  {| _db_model_map := _db_model_map self;
     _resource_map := _resource_map self;
     _update_listeners := _update_listeners self ++ [func] |}.

(** [list.remove(x)]: the first occurrence goes, [ValueError] without one. *)
Fixpoint list_remove_value (x : string) (l : list string)
  : result (list string) :=
  match l with
  | [] => Raise ValueError
  | y :: l' =>
      if decide (y = x) then Ok l'
      else match list_remove_value x l' with
           | Ok r => Ok (y :: r)
           | Raise e => Raise e
           end
  end.

Definition unregister_update_listener (self : AimManager) (func : string)
  : result AimManager :=
  match list_remove_value func (_update_listeners self) with
  | Ok l => Ok {| _db_model_map := _db_model_map self;
                  _resource_map := _resource_map self;
                  _update_listeners := l |}
  | Raise e => Raise e
  end.

(** *** The commit hook *)

(** One call [func(session, added, updated, deleted)]. *)
Record Notification := {
  n_func : string;
  n_added : list Resource;
  n_updated : list Resource;
  n_deleted : list Resource
}.

(** The inner loop of [_before_session_commit] over one change set. *)
Definition resources_of (self : AimManager) (mod_set : list DbObj)
  : list Resource :=
  omap (fun db_obj =>
          match _resource_map self !! db_type db_obj with
          | Some res_cls => Some (_make_resource res_cls db_obj)
          | None => None
          end) mod_set.

(** The session has nothing to flush: no object is new, modified or
    deleted. *)
Definition session_clean (s : Session) : Prop :=
  Forall (fun t => t_new t = false /\ t_modified t = false
                   /\ t_deleted t = false) (objects s).

#[global] Instance session_clean_dec s : Decision (session_clean s).
Proof. unfold session_clean. apply _. Defined.

Section CommitHook.

(** What a listener does to the manager's list of listeners while it runs:
    a callable may register and unregister listeners. *)
Variable on_notify : string -> list string -> list string.

Definition set_listeners (self : AimManager) (l : list string)
  : AimManager :=
  {| _db_model_map := _db_model_map self;
     _resource_map := _resource_map self;
     _update_listeners := l |}.

(** The loop [for func in snapshot: func(session, added, updated, deleted)]. *)
Fixpoint invoke_listeners (snapshot : list string)
  (added updated deleted : list Resource) (self : AimManager)
  : AimManager * list Notification :=
  match snapshot with
  | [] => (self, [])
  | func :: rest =>
      let self' :=
        set_listeners self (on_notify func (_update_listeners self)) in
      let '(self'', calls) :=
        invoke_listeners rest added updated deleted self' in
      (self'', {| n_func := func; n_added := added; n_updated := updated;
                  n_deleted := deleted |} :: calls)
  end.

Definition _before_session_commit (self : AimManager) (session : Session)
  : AimManager * list Notification :=
  let added := resources_of self (session_new session) in
  let updated := resources_of self (session_dirty session) in
  let deleted := resources_of self (session_deleted session) in
  invoke_listeners (_update_listeners self) added updated deleted self.

(** The session dispatches its [before_flush] event to every listener
    attached to it, in the order they were attached. *)
Fixpoint dispatch_before_flush (hooks : list hook) (self : AimManager)
  (session : Session) : AimManager * list Notification :=
  match hooks with
  | [] => (self, [])
  | AimHook :: rest =>
      let '(self', calls) := _before_session_commit self session in
      let '(self'', calls') := dispatch_before_flush rest self' session in
      (self'', calls ++ calls')
  | ForeignHook _ :: rest => dispatch_before_flush rest self session
  end.

Definition make_durable (t : Tracked) : Tracked :=
  {| t_obj := t_obj t; t_new := false; t_modified := false;
     t_deleted := false |}.

(** The flush of the session: nothing happens when the session has nothing
    to flush; otherwise the [before_flush] event fires, then the staged
    changes are made durable. *)
Definition sa_flush (self : AimManager) (session : Session)
  : AimManager * list Notification * Session :=
  if decide (session_clean session) then (self, [], session)
  else
    let '(self', calls) :=
      dispatch_before_flush (before_flush session) self session in
    (self', calls,
     {| connected := connected session;
        objects := make_durable <$>
                     filter (fun t => t_deleted t = false) (objects session);
        before_flush := before_flush session;
        history := history session |}).

End CommitHook.

(** A call made against a session through the manager. *)
Inductive call :=
  | Create (resource : Resource) (overwrite : bool)
  | Update (resource : Resource) (update_attr_val : gmap string value)
  | Delete (resource : Resource)
  | Get (resource : Resource)
  | Find (resource_class : ResourceClass) (kwargs : gmap string value)
  | AddCommitHook.

Definition run_call (self : AimManager) (c : call) : M unit :=
  match c with
  | Create r ow => create self r ow
  | Update r kv => update self r kv
  | Delete r => delete self r
  | Get r => let* _ := get self r in ret tt
  | Find c kw => let* _ := find self c kw in ret tt
  | AddCommitHook => _add_commit_hook
  end.

Fixpoint run_calls (self : AimManager) (cs : list call) : M unit :=
  match cs with
  | [] => ret tt
  | c :: cs' => let* _ := run_call self c in run_calls self cs'
  end.



Section Program.

Variable on_notify : string -> list string -> list string.



End Program.

(** ** Notions used in the statements *)

Definition registered (self : AimManager) (cls : ResourceClass) : Prop :=
  is_Some (_db_model_map self !! cls).

(** A resource carries a value for each of its identity attributes. *)
Definition has_identity (resource : Resource) : Prop :=
  Forall (fun k => is_Some (res_dict resource !! k))
         (identity_attributes (res_type resource)).

(** The identity-attribute values of a resource. *)
Definition identity_of (resource : Resource) : gmap string value :=
  filter (fun kv => kv.1 ∈ identity_attributes (res_type resource))
         (res_dict resource).

(** The session after one more primitive call was recorded. *)
Definition logged (c : sa_call) (s : Session) : Session :=
  {| connected := connected s; objects := objects s;
     before_flush := before_flush s; history := history s ++ [c] |}.

(** The session with other objects. *)
Definition with_objects (l : list Tracked) (s : Session) : Session :=
  {| connected := connected s; objects := l;
     before_flush := before_flush s; history := history s |}.

(** The session after [_add_commit_hook]. *)
Definition with_hook (s : Session) : Session :=
  if decide (AimHook ∈ before_flush s) then s
  else {| connected := connected s; objects := objects s;
          before_flush := before_flush s ++ [AimHook];
          history := history s ++ [SaListen] |}.

(** The session after [update] found the object at position [i]. *)
Definition updated_session (db_cls : DbClass) (resource : Resource)
  (update_attr_val : gmap string value) (i : nat) (s : Session) : Session :=
  with_hook
    (logged SaAdd
       (with_objects
          (alter (touch (filter (fun kv => kv.1 ∈ other_attributes
                                                   (res_type resource))
                                update_attr_val)) i (objects s))
          (logged (SaQuery db_cls (identity_of resource))
                  (logged SaBegin s)))).

(** The session after [create] with [overwrite=True] found the object at
    position [i]. *)
Definition overwritten_session (db_cls : DbClass) (resource : Resource)
  (i : nat) (s : Session) : Session :=
  with_hook
    (logged SaAdd
       (with_objects
          (alter (touch (getattr_default_dict resource
                           (other_attributes (res_type resource))))
                 i (objects s))
          (logged (SaQuery db_cls (identity_of resource))
                  (logged SaBegin s)))).

(** A record as [session.add] stages it. *)
Definition pending (o : DbObj) : Tracked :=
  {| t_obj := o; t_new := true; t_modified := false; t_deleted := false |}.


(** The resource handed to a public operation carries its identity. *)
Definition call_has_identity (c : call) : Prop :=
  match c with
  | Create r _ | Update r _ | Delete r | Get r => has_identity r
  | Find _ _ | AddCommitHook => True
  end.

#[global] Instance has_identity_dec resource : Decision (has_identity resource).
Proof. unfold has_identity. apply _. Defined.

#[global] Instance call_has_identity_dec c : Decision (call_has_identity c).
Proof. destruct c; simpl; apply _. Defined.




(** The notification a listener gets for a session. *)
Definition notification_for (self : AimManager) (session : Session)
  (func : string) : Notification :=
  {| n_func := func;
     n_added := resources_of self (session_new session);
     n_updated := resources_of self (session_dirty session);
     n_deleted := resources_of self (session_deleted session) |}.

(** The records in the three change sets of a session. *)
Definition session_changes (s : Session) : list DbObj :=
  session_new s ++ session_dirty s ++ session_deleted s.


Definition keeps_all {A} (m : M A) : Prop :=
  forall s a s', m s = Ok (a, s') ->
                 before_flush s' = before_flush s /\ objects s' = objects s.

Definition keeps_hooks {A} (m : M A) : Prop :=
  forall s a s', m s = Ok (a, s') -> before_flush s' = before_flush s.

(** The number of times a callable is in the list of listeners. *)
Definition registrations (self : AimManager) (func : string) : nat :=
  length (filter (fun g => g = func) (_update_listeners self)).

(** ** Sample data *)

(** A declaration of [api_res.BridgeDomain] and of its model class. *)
Definition BridgeDomain : ResourceClass :=
  {| cls_name := "BridgeDomain";
     identity_attributes := ["tenant_name"; "name"];
     other_attributes := ["vrf_name"; "enable_arp_flood"] |}.

Definition models_BridgeDomain : DbClass :=
  {| tablename := "aim_bridge_domains";
     primary_key := ["tenant_name"; "name"] |}.

(** A resource class that the manager does not know. *)
Definition Tenant : ResourceClass :=
  {| cls_name := "Tenant"; identity_attributes := ["name"];
     other_attributes := [] |}.

(** A model class of another user of the session. *)
Definition models_Agent : DbClass :=
  {| tablename := "agents"; primary_key := ["id"] |}.

Definition manager : AimManager :=
  AimManager_init (AimManager_db_model_map BridgeDomain models_BridgeDomain).

Definition bd1 : Resource :=
  new_resource BridgeDomain
    {[ "tenant_name" := VStr "t1"; "name" := VStr "bd1";
       "vrf_name" := VStr "vrf1" ]}.

Definition bd2 : Resource :=
  new_resource BridgeDomain
    {[ "tenant_name" := VStr "t1"; "name" := VStr "bd2" ]}.

(** [bd1] as a caller of [get] or [delete] gives it: identity only. *)
Definition bd1_key : Resource :=
  new_resource BridgeDomain
    {[ "tenant_name" := VStr "t1"; "name" := VStr "bd1" ]}.

Definition tenant1 : Resource :=
  new_resource Tenant {[ "name" := VStr "t1" ]}.

Definition empty_session : Session :=
  {| connected := true; objects := []; before_flush := []; history := [] |}.

(** A session that holds the record of [bd1], flushed earlier. *)
Definition bd1_row : Tracked :=
  {| t_obj := {| db_type := models_BridgeDomain;
                 db_cols := {[ "tenant_name" := VStr "t1";
                               "name" := VStr "bd1";
                               "vrf_name" := VStr "vrf1";
                               "enable_arp_flood" := VBool true ]} |};
     t_new := false; t_modified := false; t_deleted := false |}.

Definition bd1_session : Session :=
  {| connected := true; objects := [bd1_row]; before_flush := [];
     history := [] |}.

(** A session that also holds the record of [bd2], staged and not flushed. *)
Definition bd2_row : Tracked :=
  pending {| db_type := models_BridgeDomain;
             db_cols := {[ "tenant_name" := VStr "t1";
                           "name" := VStr "bd2" ]} |}.

Definition two_rows_session : Session :=
  {| connected := true; objects := [bd1_row; bd2_row];
     before_flush := [AimHook]; history := [] |}.

(** A session with the hook attached, where another user of the session
    staged a record of its own. *)
Definition agent_session : Session :=
  {| connected := true;
     objects := [pending {| db_type := models_Agent;
                            db_cols := {[ "id" := VInt 7 ]} |}];
     before_flush := [AimHook];
     history := [] |}.

Definition offline_session : Session :=
  {| connected := false; objects := [bd1_row]; before_flush := [];
     history := [] |}.

(** Two creates, an update and a second registration of the hook, against
    one session. *)
Definition sample_calls : list call :=
  [Create bd1 false; Create bd2 false;
   Update bd1_key {[ "vrf_name" := VStr "vrf2" ]}; AddCommitHook].

Definition session_after_sample_calls : Session :=
  Eval vm_compute in
    match run_calls manager sample_calls empty_session with
    | Ok (_, s) => s
    | Raise _ => empty_session
    end.

(** [bd1] with another [vrf_name] and without [enable_arp_flood]. *)
Definition bd1_changed : Resource :=
  new_resource BridgeDomain
    {[ "tenant_name" := VStr "t1"; "name" := VStr "bd1";
       "vrf_name" := VStr "vrf2" ]}.


(** A listener that registers nothing and unregisters nothing. *)
Definition quiet : string -> list string -> list string := fun _ l => l.




(** The listener [first] unregisters the listener [second] when it is
    called; the others do nothing. *)
Definition first_unregisters_second : string -> list string -> list string :=
  fun func l =>
    if decide (func = "first")
    then match list_remove_value "second" l with
         | Ok l' => l'
         | Raise _ => l
         end
    else l.

(** * Properties *)

(** ** The monad *)

Lemma bind_ok {A B} (m : M A) (f : A -> M B) s a s' :
  m s = Ok (a, s') -> bind m f s = f a s'.
Proof. intros H. unfold bind. by rewrite H. Qed.

Lemma bind_raise {A B} (m : M A) (f : A -> M B) s e :
  m s = Raise e -> bind m f s = Raise e.
Proof. intros H. unfold bind. by rewrite H. Qed.

Lemma bind_inv_ok {A B} (m : M A) (f : A -> M B) s b s2 :
  bind m f s = Ok (b, s2) ->
  exists a s1, m s = Ok (a, s1) /\ f a s1 = Ok (b, s2).
Proof.
  unfold bind. destruct (m s) as [[a s1]|e]; [|done]. intros H. eauto.
Qed.


Lemma lift_ok {A} (r : result A) (a : A) s : r = Ok a -> lift r s = Ok (a, s).
Proof. by intros ->. Qed.

Lemma lift_raise {A} (r : result A) e s : r = Raise e -> lift r s = Raise e.
Proof. by intros ->. Qed.

(** ** The registry *)

Lemma validate_instance_ok self resource db_cls :
  _db_model_map self !! res_type resource = Some db_cls ->
  _validate_resource_class self (AnInstance resource) = Ok db_cls.
Proof. intros H. unfold _validate_resource_class. by rewrite H. Qed.

Lemma validate_class_ok self cls db_cls :
  _db_model_map self !! cls = Some db_cls ->
  _validate_resource_class self (AClass cls) = Ok db_cls.
Proof. intros H. unfold _validate_resource_class. by rewrite H. Qed.

Lemma validate_instance_unknown self resource :
  _db_model_map self !! res_type resource = None ->
  _validate_resource_class self (AnInstance resource)
  = Raise (UnknownResourceType (res_type resource)).
Proof. intros H. unfold _validate_resource_class. by rewrite H. Qed.


(** ** The attribute translator *)

Lemma getattr_default_dict_lookup resource ks k :
  getattr_default_dict resource ks !! k
  = if decide (k ∈ ks) then Some (getattr_default resource k VNone) else None.
Proof.
  unfold getattr_default_dict.
  induction ks as [|k' ks IH] using rev_ind.
  - cbn [foldl]. rewrite lookup_empty. destruct (decide (k ∈ [])); [set_solver|done].
  - rewrite foldl_app. cbn [foldl]. destruct (decide (k' = k)) as [->|Hne].
    + rewrite lookup_insert_eq.
      destruct (decide (k ∈ ks ++ [k])); [done|set_solver].
    + rewrite lookup_insert_ne by done. rewrite IH.
      destruct (decide (k ∈ ks)), (decide (k ∈ ks ++ [k']));
        [done|set_solver|set_solver|done].
Qed.

Lemma getattr_dict_lookup resource ks acc d k :
  getattr_dict resource ks acc = Ok d ->
  d !! k = if decide (k ∈ ks) then res_dict resource !! k else acc !! k.
Proof.
  revert acc. induction ks as [|k' ks IH]; intros acc; simpl.
  - intros [= <-]. destruct (decide (k ∈ [])); [set_solver|done].
  - unfold getattr. destruct (res_dict resource !! k') as [v|] eqn:Hk'; [|done].
    intros Hd. rewrite (IH _ Hd). destruct (decide (k' = k)) as [->|Hne].
    + destruct (decide (k ∈ k :: ks)); [|set_solver].
      destruct (decide (k ∈ ks)); [done|]. by rewrite lookup_insert_eq.
    + rewrite lookup_insert_ne by done.
      destruct (decide (k ∈ ks)), (decide (k ∈ k' :: ks));
        [done|set_solver|set_solver|done].
Qed.

Lemma getattr_dict_ok resource ks acc :
  Forall (fun k => is_Some (res_dict resource !! k)) ks ->
  exists d, getattr_dict resource ks acc = Ok d.
Proof.
  intros H. revert acc. induction H as [|k ks [v Hv] _ IH]; intros acc; simpl.
  - eauto.
  - unfold getattr. rewrite Hv. apply IH.
Qed.

Lemma getattr_dict_raise resource ks acc e :
  getattr_dict resource ks acc = Raise e ->
  exists k, e = AttributeError k /\ k ∈ ks /\ res_dict resource !! k = None.
Proof.
  revert acc. induction ks as [|k ks IH]; intros acc; simpl; [done|].
  unfold getattr. destruct (res_dict resource !! k) as [v|] eqn:Hk.
  - intros H. destruct (IH _ H) as (k' & ? & ? & ?).
    exists k'. set_solver.
  - intros [= <-]. exists k. set_solver.
Qed.

Lemma extract_id resource :
  has_identity resource ->
  _extract_attributes resource (Some "id") = Ok (identity_of resource).
Proof.
  intros Hid. unfold _extract_attributes. simpl.
  destruct (getattr_dict_ok resource _ ∅ Hid) as [d Hd]. rewrite Hd.
  f_equal. apply map_eq. intros k.
  rewrite lookup_union, lookup_empty, (getattr_dict_lookup _ _ _ _ k Hd).
  unfold identity_of. rewrite lookup_empty.
  destruct (decide (k ∈ _)) as [Hin|Hin].
  - rewrite right_id by apply _.
    destruct (res_dict resource !! k) as [v|] eqn:Hk.
    + symmetry. by apply map_lookup_filter_Some.
    + symmetry. apply map_lookup_filter_None. left. done.
  - simpl. symmetry. apply map_lookup_filter_None. right.
    intros v _. done.
Qed.

Lemma extract_id_raise resource e :
  _extract_attributes resource (Some "id") = Raise e ->
  exists k, e = AttributeError k
            /\ k ∈ identity_attributes (res_type resource)
            /\ res_dict resource !! k = None.
Proof.
  unfold _extract_attributes. simpl.
  destruct (getattr_dict _ _ _) as [d|e'] eqn:Hd; [done|].
  intros [= <-]. by apply getattr_dict_raise in Hd.
Qed.

Lemma extract_other resource :
  _extract_attributes resource (Some "other")
  = Ok (getattr_default_dict resource (other_attributes (res_type resource))).
Proof.
  unfold _extract_attributes. simpl. f_equal. apply right_id, _.
Qed.

Lemma extract_all_lookup resource attr_val k :
  _extract_attributes resource None = Ok attr_val ->
  attr_val !! k
  = if decide (k ∈ other_attributes (res_type resource))
    then Some (getattr_default resource k VNone)
    else if decide (k ∈ identity_attributes (res_type resource))
         then res_dict resource !! k
         else None.
Proof.
  unfold _extract_attributes. simpl.
  destruct (getattr_dict _ _ _) as [d|e'] eqn:Hd; [|done].
  intros [= <-]. rewrite lookup_union, getattr_default_dict_lookup.
  rewrite lookup_union, (getattr_dict_lookup _ _ _ _ k Hd), !lookup_empty.
  repeat case_decide; destruct (res_dict resource !! k); reflexivity.
Qed.

Lemma extract_all_ok resource :
  has_identity resource ->
  exists attr_val, _extract_attributes resource None = Ok attr_val.
Proof.
  intros Hid. unfold _extract_attributes. simpl.
  destruct (getattr_dict_ok resource _ ∅ Hid) as [d Hd]. rewrite Hd. eauto.
Qed.

Lemma getattr_dict_ok_inv resource ks acc d :
  getattr_dict resource ks acc = Ok d ->
  Forall (fun k => is_Some (res_dict resource !! k)) ks.
Proof.
  revert acc. induction ks as [|k ks IH]; intros acc; simpl; [by constructor|].
  unfold getattr. destruct (res_dict resource !! k) as [v|] eqn:Hk; [|done].
  intros H. constructor; [by rewrite Hk|by eapply IH].
Qed.

Lemma extract_id_ok_inv resource d :
  _extract_attributes resource (Some "id") = Ok d -> has_identity resource.
Proof.
  unfold _extract_attributes. simpl.
  destruct (getattr_dict _ _ _) as [d'|e'] eqn:Hd; [|done].
  intros _. by eapply getattr_dict_ok_inv.
Qed.

(** ** The session primitives *)

Lemma add_commit_hook_eq s : _add_commit_hook s = Ok (tt, with_hook s).
Proof.
  unfold _add_commit_hook, bind, sa_event_contains, with_hook.
  destruct (decide (AimHook ∈ before_flush s)) as [Hin|Hin].
  - by rewrite bool_decide_eq_true_2.
  - by rewrite bool_decide_eq_false_2.
Qed.

Lemma with_hook_objects s : objects (with_hook s) = objects s.
Proof. unfold with_hook. by case_decide. Qed.

Lemma with_hook_connected s : connected (with_hook s) = connected s.
Proof. unfold with_hook. by case_decide. Qed.

Lemma with_hook_attached s : AimHook ∈ before_flush (with_hook s).
Proof. unfold with_hook. case_decide; [done|]. simpl. set_solver. Qed.

(** Attaching the hook a second time changes nothing. *)
Lemma with_hook_idemp s : with_hook (with_hook s) = with_hook s.
Proof.
  unfold with_hook at 1. rewrite decide_True by apply with_hook_attached. done.
Qed.

Lemma query_db_obj_ok self resource db_cls s :
  _db_model_map self !! res_type resource = Some db_cls ->
  has_identity resource ->
  connected s = true ->
  _query_db_obj self resource s
  = Ok (fst <$> list_find (row_matches db_cls (identity_of resource))
                          (objects s),
        logged (SaQuery db_cls (identity_of resource)) s).
Proof.
  intros Hreg Hid Hconn.
  unfold _query_db_obj, bind, lift, _query_db, q_first, sa_first, bind,
    sa_query.
  rewrite (extract_id _ Hid), Hreg. simpl. by rewrite Hconn.
Qed.


(** What it means that [_query_db_obj] found the object at position [i]. *)
Lemma query_db_obj_found self resource s i s1 :
  _query_db_obj self resource s = Ok (Some i, s1) ->
  exists db_cls t,
    _db_model_map self !! res_type resource = Some db_cls
    /\ has_identity resource
    /\ connected s = true
    /\ s1 = logged (SaQuery db_cls (identity_of resource)) s
    /\ list_find (row_matches db_cls (identity_of resource)) (objects s)
       = Some (i, t).
Proof.
  unfold _query_db_obj. intros H.
  apply bind_inv_ok in H as (id_attr & s' & Hex & H).
  unfold lift in Hex.
  destruct (_extract_attributes resource (Some "id")) as [d|] eqn:Hd; [|done].
  injection Hex as <- <-.
  pose proof (extract_id_ok_inv _ _ Hd) as Hid.
  rewrite (extract_id _ Hid) in Hd. injection Hd as <-.
  apply bind_inv_ok in H as (q & s' & Hq & H).
  unfold lift, _query_db in Hq.
  destruct (_db_model_map self !! res_type resource) as [db_cls|] eqn:Hreg;
    [|done].
  injection Hq as <- <-.
  unfold q_first, sa_first, bind, sa_query in H. simpl in H.
  destruct (connected s) eqn:Hconn; [|done]. simpl in H.
  destruct (list_find _ _) as [[j t]|] eqn:Hfind; [|done].
  injection H as <- <-. exists db_cls, t. done.
Qed.

(** ** Unregistered types *)

(** C10: for a resource of an unregistered type, [update] raises
    [UnknownResourceType] even when the set of changed attributes is empty:
    the type is validated before the check for an empty payload. *)
Theorem update_unregistered_empty self resource db_session :
  _db_model_map self !! res_type resource = None ->
  update self resource ∅ db_session
  = Raise (UnknownResourceType (res_type resource)).
Proof.
  intros Hreg. unfold update.
  apply bind_raise, lift_raise, validate_instance_unknown, Hreg.
Qed.

(** ** Update without changes *)

(** C4: for a resource of a registered type, [update] with an empty set of
    changed attributes returns and leaves the session exactly as it was: no
    transaction was begun and no query made (the history of primitive calls
    is the same), no record was touched, and the commit hook was not
    attached, so that no listener is notified on account of this call. *)
Theorem update_empty_noop self resource db_session :
  registered self (res_type resource) ->
  update self resource ∅ db_session = Ok (tt, db_session).
Proof.
  intros [db_cls Hreg]. unfold update.
  rewrite (bind_ok _ _ _ _ _ (lift_ok _ _ _ (validate_instance_ok _ _ _ Hreg))).
  by rewrite bool_decide_eq_true_2.
Qed.

Lemma alter_as_insert (f : Tracked -> Tracked) (l : list Tracked) i t :
  l !! i = Some t -> alter f i l = <[i:=f t]> l.
Proof.
  intros Hi. apply list_eq. intros j. destruct (decide (i = j)) as [<-|Hne].
  - rewrite list_lookup_alter_eq, Hi. simpl.
    rewrite list_lookup_insert_eq; [done|]. by eapply lookup_lt_Some.
  - by rewrite list_lookup_alter_ne, list_lookup_insert_ne.
Qed.

(** ** Update *)

Lemma update_found self resource update_attr_val s i s1 :
  update_attr_val ≠ ∅ ->
  _query_db_obj self resource s = Ok (Some i, s1) ->
  exists db_cls,
    _db_model_map self !! res_type resource = Some db_cls
    /\ update self resource update_attr_val s
       = Ok (tt, updated_session db_cls resource update_attr_val i s).
Proof.
  intros Hne Hq.
  apply query_db_obj_found in Hq
    as (db_cls & t & Hreg & Hid & Hconn & -> & Hfind).
  exists db_cls. split; [done|]. unfold update.
  rewrite (bind_ok _ _ _ _ _ (lift_ok _ _ _ (validate_instance_ok _ _ _ Hreg))).
  rewrite bool_decide_eq_false_2 by done.
  rewrite (bind_ok _ _ _ tt (logged SaBegin s)) by done.
  rewrite (bind_ok _ _ _ _ _
             (query_db_obj_ok _ _ _ (logged SaBegin s) Hreg Hid Hconn)).
  simpl. rewrite Hfind. simpl.
  unfold bind at 1. simpl. unfold bind at 1. simpl.
  apply add_commit_hook_eq.
Qed.

(** C7: with a non-empty mapping of changed attributes, [update] applies to
    the record it located exactly the entries whose keys are declared other
    attributes of the resource's type; an entry that names an identity
    attribute or an unknown key is ignored, and the column keeps its value. *)
Theorem update_applies_other_attributes self resource update_attr_val
    db_session i s1 t :
  update_attr_val ≠ ∅ ->
  _query_db_obj self resource db_session = Ok (Some i, s1) ->
  objects db_session !! i = Some t ->
  exists s' t',
    update self resource update_attr_val db_session = Ok (tt, s')
    /\ objects s' = <[i:=t']> (objects db_session)
    /\ db_type (t_obj t') = db_type (t_obj t)
    /\ forall k,
         db_cols (t_obj t') !! k
         = match update_attr_val !! k with
           | Some v =>
               if decide (k ∈ other_attributes (res_type resource))
               then Some v
               else db_cols (t_obj t) !! k
           | None => db_cols (t_obj t) !! k
           end.
Proof.
  intros Hne Hq Hi.
  destruct (update_found self resource update_attr_val _ _ _ Hne Hq)
    as (db_cls & Hreg & Hupd).
  eexists _, _. split; [exact Hupd|]. split; [|split].
  - unfold updated_session. rewrite with_hook_objects. simpl.
    by apply alter_as_insert.
  - done.
  - intros k. simpl. rewrite lookup_union.
    destruct (update_attr_val !! k) as [v|] eqn:Hk.
    + case_decide as Hin.
      * rewrite (map_lookup_filter_Some_2 _ _ k v) by done.
        by destruct (db_cols (t_obj t) !! k).
      * rewrite (proj2 (map_lookup_filter_None _ _ _)).
        -- by destruct (db_cols (t_obj t) !! k).
        -- right. intros v' Hv'. simpl. done.
    + rewrite (proj2 (map_lookup_filter_None _ _ _)) by (by left).
      by destruct (db_cols (t_obj t) !! k).
Qed.

(** ** Create over an existing record *)

Lemma create_overwrite_found self resource s i s1 :
  _query_db_obj self resource s = Ok (Some i, s1) ->
  exists db_cls t,
    _db_model_map self !! res_type resource = Some db_cls
    /\ has_identity resource
    /\ list_find (row_matches db_cls (identity_of resource)) (objects s)
       = Some (i, t)
    /\ create self resource true s
       = Ok (tt, overwritten_session db_cls resource i s).
Proof.
  intros Hq.
  apply query_db_obj_found in Hq
    as (db_cls & t & Hreg & Hid & Hconn & -> & Hfind).
  exists db_cls, t. split_and!; [done..|]. unfold create.
  rewrite (bind_ok _ _ _ _ _ (lift_ok _ _ _ (validate_instance_ok _ _ _ Hreg))).
  rewrite (bind_ok _ _ _ tt (logged SaBegin s)) by done.
  unfold bind at 1. unfold bind at 1.
  rewrite (query_db_obj_ok _ _ _ (logged SaBegin s) Hreg Hid Hconn).
  simpl. rewrite Hfind. simpl. rewrite (right_id_L ∅ (∪)).
  unfold bind at 1. simpl. unfold bind at 1. simpl.
  apply add_commit_hook_eq.
Qed.

(** C6: when the identity-attribute values of the resource match an existing
    record, [create] with [overwrite=True] writes that record in place, adds
    no record and leaves every other record alone; on the record itself each
    declared other attribute gets the value that the resource has for it, no
    other column is written, and the values of the identity attributes are
    what they were. *)
Theorem create_overwrite_keeps_identity self resource db_session i s1 t :
  _query_db_obj self resource db_session = Ok (Some i, s1) ->
  objects db_session !! i = Some t ->
  exists s' t',
    create self resource true db_session = Ok (tt, s')
    /\ objects s' = <[i:=t']> (objects db_session)
    /\ db_type (t_obj t') = db_type (t_obj t)
    /\ (forall k, k ∈ other_attributes (res_type resource) ->
                  db_cols (t_obj t') !! k
                  = Some (getattr_default resource k VNone))
    /\ (forall k, k ∉ other_attributes (res_type resource) ->
                  db_cols (t_obj t') !! k = db_cols (t_obj t) !! k)
    /\ (forall k, k ∈ identity_attributes (res_type resource) ->
                  column (t_obj t') k = column (t_obj t) k).
Proof.
  intros Hq Hi.
  destruct (create_overwrite_found _ _ _ _ _ Hq)
    as (db_cls & t0 & Hreg & Hid & Hfind & Hcreate).
  apply list_find_Some in Hfind as (Hi0 & Hmatch & _).
  assert (t0 = t) as -> by congruence.
  assert (forall k, k ∉ other_attributes (res_type resource) ->
            db_cols (t_obj (touch (getattr_default_dict resource
                       (other_attributes (res_type resource))) t)) !! k
            = db_cols (t_obj t) !! k) as Hframe.
  { intros k Hk. simpl. rewrite lookup_union, getattr_default_dict_lookup.
    rewrite decide_False by done. by destruct (db_cols (t_obj t) !! k). }
  eexists _, _. split; [exact Hcreate|]. split_and!.
  - unfold overwritten_session. rewrite with_hook_objects. simpl.
    by apply alter_as_insert.
  - done.
  - intros k Hk. simpl. rewrite lookup_union, getattr_default_dict_lookup.
    rewrite decide_True by done. by destruct (db_cols (t_obj t) !! k).
  - exact Hframe.
  - intros k Hk.
    destruct (decide (k ∈ other_attributes (res_type resource))) as [Hin|Hin].
    + unfold column at 1. simpl.
      rewrite lookup_union, getattr_default_dict_lookup.
      rewrite decide_True by done.
      destruct Hmatch as (_ & _ & Hvals).
      unfold has_identity in Hid. rewrite Forall_forall in Hid.
      destruct (Hid k Hk) as [v Hv].
      assert (identity_of resource !! k = Some v) as Hidk.
      { unfold identity_of. by apply map_lookup_filter_Some. }
      specialize (Hvals k v Hidk). simpl in Hvals. rewrite Hvals.
      unfold getattr_default. rewrite Hv. simpl.
      by destruct (db_cols (t_obj t) !! k).
    + unfold column. by rewrite Hframe.
Qed.

(** C9: when the identity of the resource matches an existing record,
    [create] with [overwrite=True] writes a value onto the record for every
    declared other attribute of the type; an attribute that the resource
    does not carry is written as [None].  The whole other-attribute payload
    is replaced, not just the attributes present on the input. *)
Theorem create_overwrite_writes_all_other self resource db_session i s1 t :
  _query_db_obj self resource db_session = Ok (Some i, s1) ->
  objects db_session !! i = Some t ->
  exists s' t',
    create self resource true db_session = Ok (tt, s')
    /\ objects s' = <[i:=t']> (objects db_session)
    /\ (forall k, k ∈ other_attributes (res_type resource) ->
          db_cols (t_obj t') !! k
          = Some (getattr_default resource k VNone))
    /\ (forall k, k ∈ other_attributes (res_type resource) ->
          res_dict resource !! k = None ->
          db_cols (t_obj t') !! k = Some VNone).
Proof.
  intros Hq Hi.
  destruct (create_overwrite_found _ _ _ _ _ Hq)
    as (db_cls & t0 & Hreg & Hid & Hfind & Hcreate).
  assert (forall k, k ∈ other_attributes (res_type resource) ->
            db_cols (t_obj (touch (getattr_default_dict resource
                       (other_attributes (res_type resource))) t)) !! k
            = Some (getattr_default resource k VNone)) as Hwritten.
  { intros k Hk. simpl. rewrite lookup_union, getattr_default_dict_lookup.
    rewrite decide_True by done. by destruct (db_cols (t_obj t) !! k). }
  eexists _, _. split; [exact Hcreate|]. split_and!.
  - unfold overwritten_session. rewrite with_hook_objects. simpl.
    by apply alter_as_insert.
  - exact Hwritten.
  - intros k Hk Hnone. rewrite (Hwritten k Hk).
    unfold getattr_default. by rewrite Hnone.
Qed.

(** ** Create, then get *)

Lemma make_db_obj_ok self resource db_cls :
  _db_model_map self !! res_type resource = Some db_cls ->
  has_identity resource ->
  exists o, _make_db_obj self resource = Ok o /\ db_type o = db_cls.
Proof.
  intros Hreg Hid. unfold _make_db_obj. rewrite Hreg.
  destruct (extract_all_ok _ Hid) as [attr_val ->]. eauto.
Qed.

(** The columns of the record that [_make_db_obj] builds. *)
Lemma make_db_obj_lookup self resource o k :
  _make_db_obj self resource = Ok o ->
  db_cols o !! k
  = if decide (k ∈ other_attributes (res_type resource))
    then Some (getattr_default resource k VNone)
    else if decide (k ∈ identity_attributes (res_type resource))
         then res_dict resource !! k
         else None.
Proof.
  unfold _make_db_obj.
  destruct (_db_model_map self !! res_type resource) as [db_cls|]; [|done].
  destruct (_extract_attributes resource None) as [attr_val|] eqn:Hex; [|done].
  intros [= <-]. simpl. rewrite lookup_union, lookup_empty.
  rewrite (extract_all_lookup _ _ k Hex).
  repeat case_decide; by destruct (res_dict resource !! k).
Qed.

Lemma make_db_obj_identity self resource o k v :
  _make_db_obj self resource = Ok o ->
  identity_of resource !! k = Some v ->
  column o k = v.
Proof.
  intros Ho Hk. unfold identity_of in Hk.
  apply map_lookup_filter_Some in Hk as [Hk Hin]. simpl in Hin.
  unfold column. rewrite (make_db_obj_lookup _ _ _ k Ho).
  unfold getattr_default. rewrite Hk.
  case_decide; [done|]. by rewrite decide_True.
Qed.

(** The record built from a resource answers to the resource's identity. *)
Lemma made_row_matches self resource db_cls o :
  _db_model_map self !! res_type resource = Some db_cls ->
  _make_db_obj self resource = Ok o ->
  row_matches db_cls (identity_of resource) (pending o).
Proof.
  intros Hreg Ho. split_and!.
  - simpl. unfold _make_db_obj in Ho. rewrite Hreg in Ho.
    destruct (_extract_attributes resource None); [|done].
    by injection Ho as <-.
  - done.
  - intros k v Hk. simpl. by eapply make_db_obj_identity.
Qed.

(** A record that shares the key of the record built from a resource answers
    to the resource's identity, when the identity attributes are key
    columns. *)
Lemma same_key_matches self resource db_cls o t :
  _db_model_map self !! res_type resource = Some db_cls ->
  _make_db_obj self resource = Ok o ->
  identity_attributes (res_type resource) ⊆ primary_key db_cls ->
  same_key o t ->
  row_matches db_cls (identity_of resource) t.
Proof.
  intros Hreg Ho Hpk (Hty & Hdel & Hcols).
  assert (db_type o = db_cls) as Hdb.
  { unfold _make_db_obj in Ho. rewrite Hreg in Ho.
    destruct (_extract_attributes resource None); [|done].
    by injection Ho as <-. }
  split_and!; [congruence|done|].
  intros k v Hk. simpl.
  rewrite Forall_forall in Hcols. rewrite Hcols.
  - by eapply make_db_obj_identity.
  - rewrite Hdb. apply Hpk.
    unfold identity_of in Hk. by apply map_lookup_filter_Some in Hk as [_ Hin].
Qed.

(** [create] of a resource whose identity no record answers to. *)
Lemma create_new self resource db_cls overwrite s :
  _db_model_map self !! res_type resource = Some db_cls ->
  has_identity resource ->
  connected s = true ->
  identity_attributes (res_type resource) ⊆ primary_key db_cls ->
  Forall (fun t => ~ row_matches db_cls (identity_of resource) t) (objects s) ->
  exists o s',
    _make_db_obj self resource = Ok o
    /\ create self resource overwrite s = Ok (tt, s')
    /\ objects s' = objects s ++ [pending o]
    /\ connected s' = true.
Proof.
  intros Hreg Hid Hconn Hpk Hnone.
  destruct (make_db_obj_ok _ _ _ Hreg Hid) as (o & Ho & Hdb).
  assert (~ Exists (same_key o) (objects s)) as Hfree.
  { rewrite Exists_exists. intros (t & Ht & Hkey).
    rewrite Forall_forall in Hnone. apply (Hnone t Ht).
    by eapply same_key_matches. }
  exists o. unfold create.
  rewrite (bind_ok _ _ _ _ _ (lift_ok _ _ _ (validate_instance_ok _ _ _ Hreg))).
  rewrite (bind_ok _ _ _ tt (logged SaBegin s)) by done.
  destruct overwrite.
  - unfold bind at 1. unfold bind at 1.
    rewrite (query_db_obj_ok _ _ _ (logged SaBegin s) Hreg Hid Hconn).
    simpl. rewrite (proj2 (list_find_None _ _) Hnone). simpl.
    unfold bind at 1. unfold bind at 1. simpl. rewrite Ho. simpl.
    unfold bind at 1. unfold sa_add, bind at 1. simpl.
    rewrite decide_False by done. simpl.
    rewrite add_commit_hook_eq. eexists. split_and!; [done..| |].
    + by rewrite with_hook_objects.
    + by rewrite with_hook_connected.
  - unfold bind at 1. simpl.
    unfold bind at 1. unfold bind at 1. simpl. rewrite Ho. simpl.
    unfold bind at 1. unfold sa_add, bind at 1. simpl.
    rewrite decide_False by done. simpl.
    rewrite add_commit_hook_eq. eexists. split_and!; [done..| |].
    + by rewrite with_hook_objects.
    + by rewrite with_hook_connected.
Qed.

(** C1: for a resource of a registered type whose identity-attribute values
    no existing record answers to, [create] succeeds, and a following [get]
    with a resource that carries the same identity-attribute values returns
    a resource of the same type that agrees with the created one on every
    declared identity and other attribute. *)
Theorem create_then_get self resource r db_cls overwrite db_session :
  _db_model_map self !! res_type resource = Some db_cls ->
  has_identity resource ->
  connected db_session = true ->
  identity_attributes (res_type resource) ⊆ primary_key db_cls ->
  Forall (fun t => ~ row_matches db_cls (identity_of resource) t)
         (objects db_session) ->
  res_type r = res_type resource ->
  identity_of r = identity_of resource ->
  exists s1 s2 found,
    create self resource overwrite db_session = Ok (tt, s1)
    /\ get self r s1 = Ok (Some found, s2)
    /\ res_type found = res_type resource
    /\ forall k,
         k ∈ identity_attributes (res_type resource)
             ++ other_attributes (res_type resource) ->
         getattr_default found k VNone = getattr_default resource k VNone.
Proof.
  intros Hreg Hid Hconn Hpk Hnone Hty Hsame.
  destruct (create_new _ _ _ overwrite _ Hreg Hid Hconn Hpk Hnone)
    as (o & s1 & Ho & Hcreate & Hobjs & Hconn1).
  assert (has_identity r) as Hidr.
  { unfold has_identity in *. rewrite Hty.
    rewrite Forall_forall in Hid |- *. intros k Hk.
    destruct (Hid k Hk) as [v Hv].
    assert (identity_of resource !! k = Some v) as Hidk.
    { unfold identity_of. by apply map_lookup_filter_Some. }
    rewrite <- Hsame in Hidk. unfold identity_of in Hidk.
    apply map_lookup_filter_Some in Hidk as [Hidk _]. by rewrite Hidk. }
  assert (list_find (row_matches db_cls (identity_of resource)) (objects s1)
          = Some (length (objects db_session), pending o)) as Hfind.
  { rewrite Hobjs. apply list_find_app_Some. right. split_and!.
    - done.
    - by apply list_find_None.
    - rewrite Nat.sub_diag. apply list_find_Some. split_and!.
      + done.
      + by eapply made_row_matches.
      + intros j y _ Hj. lia. }
  exists s1. eexists _, _. split; [exact Hcreate|]. split_and!.
  - unfold get.
    rewrite <- Hty in Hreg.
    rewrite (bind_ok _ _ _ _ _ (lift_ok _ _ _ (validate_instance_ok _ _ _ Hreg))).
    rewrite (bind_ok _ _ _ _ _ (query_db_obj_ok _ _ _ s1 Hreg Hidr Hconn1)).
    rewrite Hsame, Hfind. simpl. unfold bind. simpl.
    rewrite Hobjs, lookup_app_r, Nat.sub_diag by done. simpl.
    rewrite Hty. reflexivity.
  - done.
  - intros k Hk. unfold getattr_default at 1. simpl. unfold to_attr.
    assert (filter (fun kv : string * value =>
                      kv.1 ∈ other_attributes (res_type resource)
                           ++ identity_attributes (res_type resource))
                   (db_cols o) !! k = db_cols o !! k) as ->.
    { destruct (db_cols o !! k) as [v|] eqn:Hv.
      - apply map_lookup_filter_Some. split; [done|]. simpl. set_solver.
      - apply map_lookup_filter_None. by left. }
    rewrite (make_db_obj_lookup _ _ _ k Ho).
    case_decide; [done|]. rewrite decide_True by set_solver.
    unfold has_identity in Hid. rewrite Forall_forall in Hid.
    destruct (Hid k) as [v Hv]; [set_solver|].
    unfold getattr_default. by rewrite Hv.
Qed.

(** ** Errors *)










(** ** The commit hook *)

Section Dispatch.

Variable on_notify : string -> list string -> list string.

Lemma invoke_listeners_calls snapshot added updated deleted self :
  (invoke_listeners on_notify snapshot added updated deleted self).2
  = (fun func => {| n_func := func; n_added := added; n_updated := updated;
                    n_deleted := deleted |}) <$> snapshot.
Proof.
  revert self. induction snapshot as [|func rest IH]; intros self; [done|].
  simpl. specialize (IH (set_listeners self
                           (on_notify func (_update_listeners self)))).
  destruct (invoke_listeners _ _ _ _ _ _) as [self'' calls]. simpl in *.
  by rewrite IH.
Qed.

(** One firing of the hook notifies the listeners registered at that time,
    each once, in the order of the list. *)
Lemma before_session_commit_calls self session :
  (_before_session_commit on_notify self session).2
  = notification_for self session <$> _update_listeners self.
Proof. unfold _before_session_commit. apply invoke_listeners_calls. Qed.



End Dispatch.

(** *** The calls and the hook *)

Lemma keeps_all_hooks {A} (m : M A) : keeps_all m -> keeps_hooks m.
Proof. intros H s a s' Hm. by destruct (H s a s' Hm). Qed.

















(** *** The flush on leaving a block *)





(** ** Sessions without relevant records *)

Lemma resources_of_unknown self mod_set :
  Forall (fun o => _resource_map self !! db_type o = None) mod_set ->
  resources_of self mod_set = [].
Proof.
  unfold resources_of. induction 1 as [|o l Ho _ IH]; [done|].
  simpl. by rewrite Ho.
Qed.

(** C3, as the code has it: when the hook fires for a session whose change
    sets hold no record of a registered backing type, every registered
    listener is still called, once, with three empty lists. *)
Theorem listeners_called_with_empty_lists on_notify self session :
  Forall (fun o => _resource_map self !! db_type o = None)
         (session_changes session) ->
  (_before_session_commit on_notify self session).2
  = (fun func => {| n_func := func; n_added := []; n_updated := [];
                    n_deleted := [] |}) <$> _update_listeners self.
Proof.
  unfold session_changes. rewrite !Forall_app. intros (Hnew & Hdirty & Hdel).
  rewrite before_session_commit_calls. unfold notification_for.
  by rewrite !resources_of_unknown.
Qed.

(** ** Listeners *)

Lemma list_remove_value_filter func l l' :
  list_remove_value func l = Ok l' ->
  S (length (filter (fun g => g = func) l'))
  = length (filter (fun g => g = func) l).
Proof.
  revert l'. induction l as [|y l IH]; intros l'; simpl; [done|].
  case_decide as Hy.
  - intros [= <-]. by rewrite filter_cons_True.
  - destruct (list_remove_value func l) as [r|]; [|done].
    intros [= <-]. rewrite !filter_cons_False by done. by apply IH.
Qed.

(** The loop runs over a copy of the list: a listener that an earlier
    listener unregisters during a firing of the hook is still called in that
    firing, and is gone from the list afterwards. *)
Example unregistered_meanwhile_still_called :
  let self := register_update_listener
                (register_update_listener manager "first") "second" in
  n_func <$> (_before_session_commit first_unregisters_second self
                agent_session).2 = ["first"; "second"]
  /\ _update_listeners (_before_session_commit first_unregisters_second self
                          agent_session).1 = ["first"].
Proof. split; vm_compute; reflexivity. Qed.

(** C8, as the code has it: the listeners are called in the order of their
    registration; [unregister_update_listener] takes one registration of the
    callable away, and a callable that was registered once gets no
    notification from any firing of the hook that starts after
    [unregister_update_listener] returned, whatever the session had staged
    by then. *)
Theorem unregistered_listener_not_notified on_notify self func self' session :
  unregister_update_listener self func = Ok self' ->
  registrations self func = 1 ->
  (forall g, _update_listeners (register_update_listener self g)
             = _update_listeners self ++ [g])
  /\ n_func <$> (_before_session_commit on_notify self session).2
     = _update_listeners self
  /\ registrations self' func = 0
  /\ func ∉ n_func <$> (_before_session_commit on_notify self' session).2.
Proof.
  intros Hun Hone.
  assert (forall m s, n_func <$> (_before_session_commit on_notify m s).2
                      = _update_listeners m) as Horder.
  { intros m s. rewrite before_session_commit_calls, <- list_fmap_compose.
    apply list_fmap_id. }
  assert (registrations self' func = 0) as Hzero.
  { unfold unregister_update_listener in Hun.
    destruct (list_remove_value func _) as [l|] eqn:Hl; [|done].
    injection Hun as <-. apply list_remove_value_filter in Hl.
    unfold registrations in *. simpl. lia. }
  split_and!; [done|apply Horder|done|].
  rewrite Horder. intros Hin. unfold registrations in Hzero.
  apply length_zero_iff_nil in Hzero.
  assert (func ∈ filter (fun g => g = func) (_update_listeners self')) as Hf
    by (by apply list_elem_of_filter).
  rewrite Hzero in Hf. by apply not_elem_of_nil in Hf.
Qed.

(** * The statements at sample data *)

(** Decides a closed statement by evaluation. *)
Ltac by_compute :=
  unfold has_identity, session_changes;
  apply (bool_decide_unpack _); vm_compute; exact I.

Lemma create_then_get_witness :
  exists s1 s2 found,
    create manager bd1 false empty_session = Ok (tt, s1)
    /\ get manager bd1_key s1 = Ok (Some found, s2)
    /\ res_type found = res_type bd1
    /\ forall k,
         k ∈ identity_attributes (res_type bd1)
             ++ other_attributes (res_type bd1) ->
         getattr_default found k VNone = getattr_default bd1 k VNone.
Proof.
  apply (create_then_get manager bd1 bd1_key models_BridgeDomain false
           empty_session).
  - reflexivity.
  - by_compute.
  - reflexivity.
  - by_compute.
  - constructor.
  - reflexivity.
  - vm_compute. reflexivity.
Defined.


Lemma listeners_called_with_empty_lists_witness :
  (_before_session_commit quiet (register_update_listener manager "listener")
     agent_session).2
  = [{| n_func := "listener"; n_added := []; n_updated := [];
        n_deleted := [] |}].
Proof.
  apply (listeners_called_with_empty_lists quiet
           (register_update_listener manager "listener") agent_session).
  by_compute.
Defined.

Lemma update_empty_noop_witness :
  update manager bd1_key ∅ offline_session = Ok (tt, offline_session).
Proof.
  apply (update_empty_noop manager bd1_key offline_session).
  exists models_BridgeDomain. reflexivity.
Defined.


Lemma create_overwrite_keeps_identity_witness :
  exists s' t',
    create manager bd1_changed true bd1_session = Ok (tt, s')
    /\ objects s' = <[0:=t']> (objects bd1_session)
    /\ db_type (t_obj t') = db_type (t_obj bd1_row)
    /\ (forall k, k ∈ other_attributes (res_type bd1_changed) ->
                  db_cols (t_obj t') !! k
                  = Some (getattr_default bd1_changed k VNone))
    /\ (forall k, k ∉ other_attributes (res_type bd1_changed) ->
                  db_cols (t_obj t') !! k = db_cols (t_obj bd1_row) !! k)
    /\ (forall k, k ∈ identity_attributes (res_type bd1_changed) ->
                  column (t_obj t') k = column (t_obj bd1_row) k).
Proof.
  eapply (create_overwrite_keeps_identity manager bd1_changed bd1_session 0).
  - vm_compute. reflexivity.
  - reflexivity.
Defined.

Lemma update_applies_other_attributes_witness :
  exists s' t',
    update manager bd1_key
      {[ "vrf_name" := VStr "vrf2"; "name" := VStr "other" ]} bd1_session
    = Ok (tt, s')
    /\ objects s' = <[0:=t']> (objects bd1_session)
    /\ db_type (t_obj t') = db_type (t_obj bd1_row)
    /\ forall k,
         db_cols (t_obj t') !! k
         = match ({[ "vrf_name" := VStr "vrf2"; "name" := VStr "other" ]}
                    : gmap string value) !! k with
           | Some v =>
               if decide (k ∈ other_attributes (res_type bd1_key))
               then Some v
               else db_cols (t_obj bd1_row) !! k
           | None => db_cols (t_obj bd1_row) !! k
           end.
Proof.
  eapply (update_applies_other_attributes manager bd1_key _ bd1_session 0).
  - by_compute.
  - vm_compute. reflexivity.
  - reflexivity.
Defined.

Lemma unregistered_listener_not_notified_witness :
  (forall g, _update_listeners
               (register_update_listener
                  (register_update_listener manager "listener") g)
             = _update_listeners (register_update_listener manager "listener")
               ++ [g])
  /\ n_func <$> (_before_session_commit quiet
                   (register_update_listener manager "listener")
                   session_after_sample_calls).2
     = _update_listeners (register_update_listener manager "listener")
  /\ registrations manager "listener" = 0
  /\ "listener" ∉ n_func <$> (_before_session_commit quiet manager
                                session_after_sample_calls).2.
Proof.
  apply (unregistered_listener_not_notified quiet
           (register_update_listener manager "listener") "listener" manager
           session_after_sample_calls).
  - vm_compute. reflexivity.
  - vm_compute. reflexivity.
Defined.

Lemma create_overwrite_writes_all_other_witness :
  exists s' t',
    create manager bd1_key true bd1_session = Ok (tt, s')
    /\ objects s' = <[0:=t']> (objects bd1_session)
    /\ (forall k, k ∈ other_attributes (res_type bd1_key) ->
          db_cols (t_obj t') !! k
          = Some (getattr_default bd1_key k VNone))
    /\ (forall k, k ∈ other_attributes (res_type bd1_key) ->
          res_dict bd1_key !! k = None ->
          db_cols (t_obj t') !! k = Some VNone).
Proof.
  eapply (create_overwrite_writes_all_other manager bd1_key bd1_session 0).
  - vm_compute. reflexivity.
  - reflexivity.
Defined.

Lemma update_unregistered_empty_witness :
  update manager tenant1 ∅ empty_session
  = Raise (UnknownResourceType (res_type tenant1)).
Proof.
  apply (update_unregistered_empty manager tenant1 empty_session).
  reflexivity.
Defined.

(** * Where the code differs *)


(** C3 as stated fails: the session staged only a record of a model class
    the manager does not know, and the listener is called all the same. *)
Lemma listener_called_without_relevant_records :
  Forall (fun o => _resource_map (register_update_listener manager "listener")
                     !! db_type o = None)
         (session_changes agent_session)
  /\ (sa_flush quiet (register_update_listener manager "listener")
        agent_session).1.2
     = [{| n_func := "listener"; n_added := []; n_updated := [];
           n_deleted := [] |}].
Proof.
  split.
  - by_compute.
  - vm_compute. reflexivity.
Qed.


(** C8 as stated fails: a callable that was registered twice is still
    notified after [unregister_update_listener] returned. *)
Lemma listener_registered_twice_still_notified :
  unregister_update_listener
    (register_update_listener (register_update_listener manager "listener")
       "listener") "listener"
  = Ok (register_update_listener manager "listener")
  /\ "listener" ∈ n_func <$> (_before_session_commit quiet
                                (register_update_listener manager "listener")
                                agent_session).2.
Proof.
  split.
  - vm_compute. reflexivity.
  - vm_compute. apply list_elem_of_here.
Qed.

(** * Further properties of the operations *)

(** ** Operations on an identity that no record has *)

Lemma query_db_obj_missing self resource db_cls s :
  _db_model_map self !! res_type resource = Some db_cls ->
  has_identity resource ->
  connected s = true ->
  Forall (fun t => ~ row_matches db_cls (identity_of resource) t) (objects s) ->
  _query_db_obj self resource s
  = Ok (None, logged (SaQuery db_cls (identity_of resource)) s).
Proof.
  intros Hreg Hid Hconn Hnone.
  rewrite (query_db_obj_ok _ _ _ _ Hreg Hid Hconn).
  by rewrite (proj2 (list_find_None _ _) Hnone).
Qed.

(** X1: [update] of a resource whose identity no record answers to returns
    without error, changes no record and does not attach the commit hook; it
    only began the transaction and made its query. *)
Theorem update_missing_changes_nothing self resource db_cls update_attr_val
    db_session :
  _db_model_map self !! res_type resource = Some db_cls ->
  has_identity resource ->
  connected db_session = true ->
  update_attr_val ≠ ∅ ->
  Forall (fun t => ~ row_matches db_cls (identity_of resource) t)
         (objects db_session) ->
  exists s',
    update self resource update_attr_val db_session = Ok (tt, s')
    /\ objects s' = objects db_session
    /\ before_flush s' = before_flush db_session
    /\ history s'
       = history db_session
         ++ [SaBegin; SaQuery db_cls (identity_of resource)].
Proof.
  intros Hreg Hid Hconn Hne Hnone. eexists. split.
  - unfold update.
    rewrite (bind_ok _ _ _ _ _ (lift_ok _ _ _ (validate_instance_ok _ _ _ Hreg))).
    rewrite bool_decide_eq_false_2 by done.
    rewrite (bind_ok _ _ _ tt (logged SaBegin db_session)) by done.
    rewrite (bind_ok _ _ _ _ _
               (query_db_obj_missing _ _ _ (logged SaBegin db_session)
                  Hreg Hid Hconn Hnone)).
    reflexivity.
  - simpl. split_and!; [done..|]. by rewrite <- app_assoc.
Qed.

(** X2: [delete] of a resource whose identity no record answers to returns
    without error, marks no record as deleted and does not attach the commit
    hook. *)
Theorem delete_missing_changes_nothing self resource db_cls db_session :
  _db_model_map self !! res_type resource = Some db_cls ->
  has_identity resource ->
  connected db_session = true ->
  Forall (fun t => ~ row_matches db_cls (identity_of resource) t)
         (objects db_session) ->
  exists s',
    delete self resource db_session = Ok (tt, s')
    /\ objects s' = objects db_session
    /\ before_flush s' = before_flush db_session
    /\ history s'
       = history db_session
         ++ [SaBegin; SaQuery db_cls (identity_of resource)].
Proof.
  intros Hreg Hid Hconn Hnone. eexists. split.
  - unfold delete.
    rewrite (bind_ok _ _ _ _ _ (lift_ok _ _ _ (validate_instance_ok _ _ _ Hreg))).
    rewrite (bind_ok _ _ _ tt (logged SaBegin db_session)) by done.
    rewrite (bind_ok _ _ _ _ _
               (query_db_obj_missing _ _ _ (logged SaBegin db_session)
                  Hreg Hid Hconn Hnone)).
    reflexivity.
  - simpl. split_and!; [done..|]. by rewrite <- app_assoc.
Qed.

(** ** Delete *)

Lemma delete_found self resource s i s1 :
  _query_db_obj self resource s = Ok (Some i, s1) ->
  exists db_cls t,
    _db_model_map self !! res_type resource = Some db_cls
    /\ has_identity resource
    /\ connected s = true
    /\ list_find (row_matches db_cls (identity_of resource)) (objects s)
       = Some (i, t)
    /\ delete self resource s
       = Ok (tt, with_hook
                   (with_objects (alter mark_deleted i (objects s))
                      (logged SaDelete
                         (logged (SaQuery db_cls (identity_of resource))
                                 (logged SaBegin s))))).
Proof.
  intros Hq.
  apply query_db_obj_found in Hq
    as (db_cls & t & Hreg & Hid & Hconn & -> & Hfind).
  exists db_cls, t. split_and!; [done..|]. unfold delete.
  rewrite (bind_ok _ _ _ _ _ (lift_ok _ _ _ (validate_instance_ok _ _ _ Hreg))).
  rewrite (bind_ok _ _ _ tt (logged SaBegin s)) by done.
  rewrite (bind_ok _ _ _ _ _
             (query_db_obj_ok _ _ _ (logged SaBegin s) Hreg Hid Hconn)).
  simpl. rewrite Hfind. simpl.
  unfold bind at 1. simpl. apply add_commit_hook_eq.
Qed.

(** X4: when the record of the resource is the only one that answers to its
    identity, [get] after [delete] finds nothing and returns [None]. *)
Theorem delete_then_get_none self resource db_session i s1 t :
  _query_db_obj self resource db_session = Ok (Some i, s1) ->
  objects db_session !! i = Some t ->
  (forall db_cls j t',
     _db_model_map self !! res_type resource = Some db_cls ->
     objects db_session !! j = Some t' ->
     row_matches db_cls (identity_of resource) t' -> j = i) ->
  exists s' s'',
    delete self resource db_session = Ok (tt, s')
    /\ get self resource s' = Ok (None, s'').
Proof.
  intros Hq Hi Honly.
  destruct (delete_found _ _ _ _ _ Hq)
    as (db_cls & t0 & Hreg & Hid & Hconn & Hfind & Hdel).
  assert (Forall (fun t' => ~ row_matches db_cls (identity_of resource) t')
                 (alter mark_deleted i (objects db_session))) as Hnone.
  { apply Forall_lookup. intros j t' Hj.
    destruct (decide (j = i)) as [->|Hne].
    - rewrite list_lookup_alter_eq, Hi in Hj. injection Hj as <-.
      intros (_ & Hdeleted & _). done.
    - rewrite list_lookup_alter_ne in Hj by done.
      intros Hmatch. apply Hne. by eapply Honly. }
  remember (with_hook
              (with_objects (alter mark_deleted i (objects db_session))
                 (logged SaDelete
                    (logged (SaQuery db_cls (identity_of resource))
                            (logged SaBegin db_session))))) as s' eqn:Hs'.
  assert (_query_db_obj self resource s'
          = Ok (None, logged (SaQuery db_cls (identity_of resource)) s'))
    as Hq'.
  { apply query_db_obj_missing; [done|done| |].
    - subst s'. by rewrite with_hook_connected.
    - subst s'. by rewrite with_hook_objects. }
  exists s'. eexists. split; [exact Hdel|]. unfold get.
  rewrite (bind_ok _ _ _ _ _ (lift_ok _ _ _ (validate_instance_ok _ _ _ Hreg))).
  rewrite (bind_ok _ _ _ _ _ Hq'). reflexivity.
Qed.

(** ** Get and find *)

Lemma query_db_obj_inv self resource s found s1 :
  _query_db_obj self resource s = Ok (found, s1) ->
  exists db_cls,
    _db_model_map self !! res_type resource = Some db_cls
    /\ has_identity resource
    /\ connected s = true
    /\ s1 = logged (SaQuery db_cls (identity_of resource)) s
    /\ found = fst <$> list_find (row_matches db_cls (identity_of resource))
                                 (objects s).
Proof.
  unfold _query_db_obj. intros H.
  apply bind_inv_ok in H as (id_attr & s' & Hex & H).
  unfold lift in Hex.
  destruct (_extract_attributes resource (Some "id")) as [d|] eqn:Hd; [|done].
  injection Hex as <- <-.
  pose proof (extract_id_ok_inv _ _ Hd) as Hid.
  rewrite (extract_id _ Hid) in Hd. injection Hd as <-.
  apply bind_inv_ok in H as (q & s' & Hq & H).
  unfold lift, _query_db in Hq.
  destruct (_db_model_map self !! res_type resource) as [db_cls|] eqn:Hreg;
    [|done].
  injection Hq as <- <-.
  unfold q_first, sa_first, bind, sa_query in H. simpl in H.
  destruct (connected s) eqn:Hconn; [|done]. simpl in H.
  injection H as <- <-. by exists db_cls.
Qed.

Lemma find_ok self cls db_cls kwargs s :
  _db_model_map self !! cls = Some db_cls ->
  connected s = true ->
  let attr_val :=
    filter (fun kv : string * value =>
              kv.1 ∈ other_attributes cls ++ identity_attributes cls)
           kwargs in
  find self cls kwargs s
  = Ok (_make_resource cls
          <$> (t_obj <$> filter (row_matches db_cls attr_val) (objects s)),
        logged (SaQuery db_cls attr_val) s).
Proof.
  intros Hreg Hconn. simpl. unfold find.
  rewrite (bind_ok _ _ _ _ _ (lift_ok _ _ _ (validate_class_ok _ _ _ Hreg))).
  unfold bind, lift, _query_db, q_all, sa_all, bind, sa_query.
  rewrite Hreg. simpl. by rewrite Hconn.
Qed.

Lemma find_inv self cls kwargs s rs s' :
  find self cls kwargs s = Ok (rs, s') ->
  exists db_cls,
    _db_model_map self !! cls = Some db_cls /\ connected s = true.
Proof.
  intros H. pose proof H as H0. unfold find in H0.
  apply bind_inv_ok in H0 as (db_cls & s1 & Hv & _).
  unfold lift, _validate_resource_class in Hv.
  destruct (_db_model_map self !! cls) as [d|] eqn:Hreg; [|done].
  exists d. split; [done|].
  destruct (connected s) eqn:Hconn; [done|].
  revert H. unfold find.
  rewrite (bind_ok _ _ _ _ _ (lift_ok _ _ _ (validate_class_ok _ _ _ Hreg))).
  unfold bind, lift, _query_db, q_all, sa_all, bind, sa_query.
  rewrite Hreg. simpl. by rewrite Hconn.
Qed.

(** A declared attribute of the resource built from a record reads as the
    record's column. *)
Lemma make_resource_getattr cls o k :
  k ∈ other_attributes cls ++ identity_attributes cls ->
  getattr_default (_make_resource cls o) k VNone = column o k.
Proof.
  intros Hk. unfold getattr_default, column. simpl. unfold to_attr.
  destruct (db_cols o !! k) as [v|] eqn:Hv.
  - by rewrite (map_lookup_filter_Some_2 _ _ k v).
  - rewrite (proj2 (map_lookup_filter_None _ _ _)); [done|by left].
Qed.

(** X6: criteria that are not declared attributes of the class have no
    effect on [find]: the call gives what it gives without them. *)
Theorem find_ignores_unknown_criteria self cls kwargs db_session :
  find self cls kwargs db_session
  = find self cls
      (filter (fun kv : string * value =>
                 kv.1 ∈ other_attributes cls ++ identity_attributes cls)
              kwargs)
      db_session.
Proof.
  unfold find.
  destruct (lift (_validate_resource_class self (AClass cls)) db_session)
    as [[db_cls s1]|e] eqn:Hv.
  - rewrite !(bind_ok _ _ _ _ _ Hv). f_equal.
    by rewrite (map_filter_id _ (filter _ kwargs))
      by (by intros k v [_ Hk]%map_lookup_filter_Some).
  - by rewrite !(bind_raise _ _ _ _ Hv).
Qed.

(** X7: every resource that [find] returns is of the class asked for and
    carries, for each criterion on a declared attribute, the value asked
    for. *)
Theorem find_results_meet_criteria self cls kwargs db_session rs s' :
  find self cls kwargs db_session = Ok (rs, s') ->
  forall r, r ∈ rs ->
    res_type r = cls
    /\ forall k v,
         kwargs !! k = Some v ->
         k ∈ other_attributes cls ++ identity_attributes cls ->
         getattr_default r k VNone = v.
Proof.
  intros H r Hr.
  destruct (find_inv _ _ _ _ _ _ H) as (db_cls & Hreg & Hconn).
  rewrite (find_ok _ _ _ _ _ Hreg Hconn) in H. injection H as <- _.
  apply list_elem_of_fmap in Hr as (o & -> & Ho).
  apply list_elem_of_fmap in Ho as (t & -> & Ht).
  apply list_elem_of_filter in Ht as [(_ & _ & Hvals) _].
  split; [done|]. intros k v Hk Hdecl.
  rewrite make_resource_getattr by done.
  apply (Hvals k v). by apply map_lookup_filter_Some.
Qed.

(** X8: [find] without criteria returns one resource for each record of the
    class's table that is not deleted, in the order of the records. *)
Theorem find_without_criteria_returns_all self cls db_cls db_session :
  _db_model_map self !! cls = Some db_cls ->
  connected db_session = true ->
  exists s',
    find self cls ∅ db_session
    = Ok (_make_resource cls
            <$> (t_obj <$> filter (fun t => db_type (t_obj t) = db_cls
                                            /\ t_deleted t = false)
                                  (objects db_session)),
          s').
Proof.
  intros Hreg Hconn. eexists.
  rewrite (find_ok _ _ _ _ _ Hreg Hconn). rewrite map_filter_empty.
  do 4 f_equal. apply list_filter_iff. intros t. unfold row_matches.
  split.
  - intros (? & ? & _). done.
  - intros (? & ?). split_and!; [done..|]. apply map_Forall_empty.
Qed.

Lemma list_find_filter_head {A} (P : A -> Prop) `{!forall x, Decision (P x)}
    (l : list A) i x :
  list_find P l = Some (i, x) -> exists l', filter P l = x :: l'.
Proof.
  revert i. induction l as [|y l IH]; intros i; [done|]. simpl.
  case_decide as Hy.
  - intros [= <- <-]. rewrite filter_cons_True by done. eauto.
  - rewrite filter_cons_False by done.
    destruct (list_find P l) as [[j z]|]; [|done].
    simpl. intros [= <- <-]. by eapply IH.
Qed.

(** X9: the resource that [get] returns is the first of the resources that
    [find] returns for the class of the resource and its identity-attribute
    values. *)
Theorem get_is_first_of_find self resource db_session found s1 :
  get self resource db_session = Ok (Some found, s1) ->
  exists rs s2,
    find self (res_type resource) (identity_of resource) db_session
    = Ok (found :: rs, s2).
Proof.
  unfold get. intros H.
  apply bind_inv_ok in H as (? & s' & Hv & H).
  unfold lift in Hv.
  destruct (_validate_resource_class _ _); [|done]. injection Hv as _ <-.
  apply bind_inv_ok in H as (i & s2 & Hq & H).
  apply query_db_obj_inv in Hq as (db_cls & Hreg & Hid & Hconn & -> & ->).
  destruct (list_find _ _) as [[i t]|] eqn:Hfind; simpl in H; [|done].
  apply bind_inv_ok in H as (o & s3 & Hr & H). injection H as <- <-.
  pose proof Hfind as (Hi & _)%list_find_Some.
  simpl in Hr. rewrite Hi in Hr. injection Hr as <- <-.
  destruct (list_find_filter_head _ _ _ _ Hfind) as [l' Hl'].
  rewrite (find_ok _ _ _ _ _ Hreg Hconn).
  rewrite (map_filter_id _ (identity_of resource)).
  - rewrite Hl'. simpl. eauto.
  - intros k v [_ Hk]%map_lookup_filter_Some. simpl in *. set_solver.
Qed.

(** ** Update, then get *)

Lemma column_from_attr attr_val o k :
  column (from_attr attr_val o) k
  = match attr_val !! k with
    | Some v => v
    | None => column o k
    end.
Proof.
  unfold column. simpl. rewrite lookup_union.
  destruct (attr_val !! k), (db_cols o !! k); reflexivity.
Qed.

(** X10: when no identity attribute of the type is also declared as an other
    attribute, [get] after [update] returns the resource of the updated
    record: it has the new value for each changed other attribute and the
    stored value for every other declared attribute. *)
Theorem update_then_get self resource update_attr_val db_session i s1 t :
  update_attr_val ≠ ∅ ->
  _query_db_obj self resource db_session = Ok (Some i, s1) ->
  objects db_session !! i = Some t ->
  Forall (fun k => k ∉ other_attributes (res_type resource))
         (identity_attributes (res_type resource)) ->
  exists s' s'' found,
    update self resource update_attr_val db_session = Ok (tt, s')
    /\ get self resource s' = Ok (Some found, s'')
    /\ res_type found = res_type resource
    /\ (forall k, k ∈ other_attributes (res_type resource) ->
          getattr_default found k VNone
          = match update_attr_val !! k with
            | Some v => v
            | None => column (t_obj t) k
            end)
    /\ (forall k, k ∈ identity_attributes (res_type resource) ->
          getattr_default found k VNone = column (t_obj t) k).
Proof.
  intros Hne Hq Hi Hdisj.
  destruct (update_found self resource update_attr_val _ _ _ Hne Hq)
    as (db_cls & Hreg & Hupd).
  apply query_db_obj_found in Hq
    as (db_cls' & t0 & Hreg' & Hid & Hconn & _ & Hfind).
  assert (db_cls' = db_cls) as -> by congruence.
  pose proof Hfind as (Hi0 & Hmatch & Hfirst)%list_find_Some.
  assert (t0 = t) as -> by congruence.
  set (attr_val := filter (fun kv : string * value =>
                             kv.1 ∈ other_attributes (res_type resource))
                          update_attr_val) in *.
  assert (forall k, k ∉ other_attributes (res_type resource) ->
                    attr_val !! k = None) as Hout.
  { intros k Hk. apply map_lookup_filter_None. right. by intros v _. }
  assert (forall k, k ∈ other_attributes (res_type resource) ->
                    attr_val !! k = update_attr_val !! k) as Hin.
  { intros k Hk. destruct (update_attr_val !! k) as [v|] eqn:Hv.
    - by apply map_lookup_filter_Some.
    - apply map_lookup_filter_None. by left. }
  remember (updated_session db_cls resource update_attr_val i db_session)
    as s' eqn:Hs'.
  assert (objects s' = alter (touch attr_val) i (objects db_session)) as Hobjs.
  { subst s'. unfold updated_session. by rewrite with_hook_objects. }
  assert (connected s' = true) as Hconn'.
  { subst s'. unfold updated_session. by rewrite with_hook_connected. }
  assert (list_find (row_matches db_cls (identity_of resource)) (objects s')
          = Some (i, touch attr_val t)) as Hfind'.
  { rewrite Hobjs. apply list_find_Some. split_and!.
    - by rewrite list_lookup_alter_eq, Hi.
    - destruct Hmatch as (Hty & Hdel & Hvals). split_and!; [done..|].
      intros k v Hk. simpl. rewrite column_from_attr.
      rewrite Hout; [by apply Hvals|].
      rewrite Forall_forall in Hdisj. apply Hdisj.
      unfold identity_of in Hk.
      by apply map_lookup_filter_Some in Hk as [_ ?].
    - intros j y Hj Hlt.
      rewrite list_lookup_alter_ne in Hj by lia. by eapply Hfirst. }
  exists s'. eexists _, _. split; [exact Hupd|]. split_and!.
  - unfold get.
    rewrite (bind_ok _ _ _ _ _ (lift_ok _ _ _ (validate_instance_ok _ _ _ Hreg))).
    rewrite (bind_ok _ _ _ _ _ (query_db_obj_ok _ _ _ s' Hreg Hid Hconn')).
    rewrite Hfind'. simpl. unfold bind. simpl.
    apply list_find_Some in Hfind' as (-> & _). reflexivity.
  - done.
  - intros k Hk. rewrite make_resource_getattr by set_solver.
    simpl. rewrite column_from_attr. by rewrite Hin.
  - intros k Hk. rewrite make_resource_getattr by set_solver.
    simpl. rewrite column_from_attr. rewrite Hout; [done|].
    rewrite Forall_forall in Hdisj. by apply Hdisj.
Qed.

Lemma touch_nothing t : touch ∅ t = t.
Proof.
  destruct t as [[ty cols] n m d]. unfold touch, from_attr. simpl.
  rewrite (left_id_L ∅ (∪)). by rewrite orb_false_r.
Qed.

(** X11: [update] with a payload in which no key is a declared other
    attribute of the type changes no record, yet it attaches the commit
    hook when it has located the record. *)
Theorem update_with_undeclared_keys_only self resource update_attr_val
    db_session i s1 :
  update_attr_val ≠ ∅ ->
  _query_db_obj self resource db_session = Ok (Some i, s1) ->
  map_Forall (fun k _ => k ∉ other_attributes (res_type resource))
             update_attr_val ->
  exists s',
    update self resource update_attr_val db_session = Ok (tt, s')
    /\ objects s' = objects db_session
    /\ AimHook ∈ before_flush s'.
Proof.
  intros Hne Hq Hkeys.
  destruct (update_found self resource update_attr_val _ _ _ Hne Hq)
    as (db_cls & Hreg & Hupd).
  eexists. split; [exact Hupd|]. unfold updated_session. split.
  - rewrite with_hook_objects. simpl.
    assert (filter (fun kv : string * value =>
                      kv.1 ∈ other_attributes (res_type resource))
                   update_attr_val = ∅) as ->.
    { apply map_eq. intros k. rewrite lookup_empty.
      apply map_lookup_filter_None.
      destruct (update_attr_val !! k) as [v|] eqn:Hk; [|by left].
      right. intros v' Hv'. simpl. by eapply Hkeys. }
    apply list_alter_id, touch_nothing.
  - apply with_hook_attached.
Qed.

(** ** A resource without one of its identity attributes *)


(** ** Create without overwrite *)

Lemma create_fresh_eq self resource db_cls o s :
  _db_model_map self !! res_type resource = Some db_cls ->
  _make_db_obj self resource = Ok o ->
  create self resource false s
  = if decide (Exists (same_key o) (objects s))
    then Raise (DBError IntegrityError)
    else Ok (tt, with_hook
                   (with_objects (objects s ++ [pending o])
                      (logged SaAdd (logged SaBegin s)))).
Proof.
  intros Hreg Ho. unfold create.
  rewrite (bind_ok _ _ _ _ _ (lift_ok _ _ _ (validate_instance_ok _ _ _ Hreg))).
  rewrite (bind_ok _ _ _ tt (logged SaBegin s)) by done.
  unfold bind at 1. simpl.
  unfold bind at 1. unfold bind at 1. simpl. rewrite Ho. simpl.
  unfold bind at 1. unfold sa_add, bind at 1. simpl.
  case_decide; [done|]. simpl. apply add_commit_hook_eq.
Qed.

(** X14: [create] without [overwrite] does not overwrite: when a record
    answers to the identity of the resource and the key of the table lies
    within the identity attributes, the call fails with the integrity error
    of the storage layer. *)
Theorem create_does_not_overwrite self resource db_cls db_session :
  _db_model_map self !! res_type resource = Some db_cls ->
  has_identity resource ->
  primary_key db_cls ⊆ identity_attributes (res_type resource) ->
  Exists (row_matches db_cls (identity_of resource)) (objects db_session) ->
  create self resource false db_session = Raise (DBError IntegrityError).
Proof.
  intros Hreg Hid Hpk Hex.
  destruct (make_db_obj_ok _ _ _ Hreg Hid) as (o & Ho & Hdb).
  rewrite (create_fresh_eq _ _ _ _ _ Hreg Ho).
  rewrite decide_True; [done|].
  apply Exists_exists in Hex as (t & Ht & Hty & Hdel & Hvals).
  apply Exists_exists. exists t. split; [done|].
  split_and!; [congruence|done|].
  apply Forall_forall. intros k Hk. rewrite Hdb in Hk.
  unfold has_identity in Hid. rewrite Forall_forall in Hid.
  destruct (Hid k (Hpk k Hk)) as [v Hv].
  assert (identity_of resource !! k = Some v) as Hidk.
  { unfold identity_of. apply map_lookup_filter_Some. split; [done|].
    simpl. by apply Hpk. }
  rewrite (make_db_obj_identity _ _ _ _ _ Ho Hidk).
  by apply (Hvals k v).
Qed.

(** ** The attribute translator, there and back *)

(** X15: for a registered type and a resource that carries its identity,
    the record built by [_make_db_obj] translates back, by [_make_resource],
    to a resource of the same type that agrees with the original on every
    declared attribute and has no attribute that is not declared; building
    the record again from that resource gives the same record. *)
Theorem translator_round_trip self resource :
  registered self (res_type resource) ->
  has_identity resource ->
  exists o,
    _make_db_obj self resource = Ok o
    /\ res_type (_make_resource (res_type resource) o) = res_type resource
    /\ (forall k,
          k ∈ other_attributes (res_type resource)
              ++ identity_attributes (res_type resource) ->
          getattr_default (_make_resource (res_type resource) o) k VNone
          = getattr_default resource k VNone)
    /\ (forall k,
          k ∉ other_attributes (res_type resource)
              ++ identity_attributes (res_type resource) ->
          res_dict (_make_resource (res_type resource) o) !! k = None)
    /\ _make_db_obj self (_make_resource (res_type resource) o) = Ok o.
Proof.
  intros [db_cls Hreg] Hid.
  destruct (make_db_obj_ok _ _ _ Hreg Hid) as (o & Ho & Hdb).
  assert (forall k,
            k ∈ other_attributes (res_type resource)
                ++ identity_attributes (res_type resource) ->
            res_dict (_make_resource (res_type resource) o) !! k
            = db_cols o !! k) as Hkeep.
  { intros k Hk. simpl. unfold to_attr.
    destruct (db_cols o !! k) as [v|] eqn:Hv.
    - by apply map_lookup_filter_Some.
    - apply map_lookup_filter_None. by left. }
  assert (forall k,
            k ∈ identity_attributes (res_type resource) ->
            db_cols o !! k = Some (getattr_default resource k VNone))
    as Hident.
  { intros k Hk. rewrite (make_db_obj_lookup _ _ _ k Ho).
    case_decide; [done|]. rewrite decide_True by done.
    unfold has_identity in Hid. rewrite Forall_forall in Hid.
    destruct (Hid k Hk) as [v Hv]. unfold getattr_default. by rewrite Hv. }
  assert (forall k,
            k ∈ other_attributes (res_type resource)
                ++ identity_attributes (res_type resource) ->
            getattr_default (_make_resource (res_type resource) o) k VNone
            = getattr_default resource k VNone) as Hagree.
  { intros k Hk. rewrite make_resource_getattr by done.
    unfold column. rewrite (make_db_obj_lookup _ _ _ k Ho).
    case_decide; [done|]. rewrite decide_True by set_solver.
    unfold getattr_default. by destruct (res_dict resource !! k). }
  exists o. split_and!; [done|done|exact Hagree|..].
  - intros k Hk. simpl. apply map_lookup_filter_None. right.
    intros v _. done.
  - assert (has_identity (_make_resource (res_type resource) o)) as Hid'.
    { unfold has_identity. apply Forall_forall. intros k Hk.
      rewrite Hkeep by (simpl in Hk; set_solver).
      rewrite Hident by exact Hk. done. }
    destruct (make_db_obj_ok self (_make_resource (res_type resource) o)
                db_cls Hreg Hid') as (o' & Ho' & Hdb').
    rewrite Ho'. f_equal.
    assert (db_cols o' = db_cols o) as Hcols.
    { apply map_eq. intros k.
      rewrite (make_db_obj_lookup _ _ _ k Ho'), (make_db_obj_lookup _ _ _ k Ho).
      change (res_type (_make_resource (res_type resource) o))
        with (res_type resource).
      destruct (decide (k ∈ other_attributes (res_type resource)))
        as [Hoth|Hoth].
      - rewrite Hagree by set_solver. done.
      - destruct (decide (k ∈ identity_attributes (res_type resource)))
          as [Hidk|Hidk]; [|done].
        rewrite Hkeep by set_solver. rewrite Hident by done.
        unfold has_identity in Hid. rewrite Forall_forall in Hid.
        destruct (Hid k Hidk) as [v Hv]. unfold getattr_default.
        by rewrite Hv. }
    destruct o as [ty cols], o' as [ty' cols']. simpl in *. congruence.
Qed.

(** ** The manager's two maps *)

(** X16: when no two resource classes share a model class, [__init__] makes
    [_resource_map] the inverse of [_db_model_map]: a model class leads back
    to exactly the resource class registered for it, and the manager starts
    without listeners. *)
Theorem init_inverts_the_model_map (db_model_map : gmap ResourceClass DbClass) :
  (forall k1 k2 v, db_model_map !! k1 = Some v ->
                   db_model_map !! k2 = Some v -> k1 = k2) ->
  (forall k v, _resource_map (AimManager_init db_model_map) !! v = Some k
               <-> db_model_map !! k = Some v)
  /\ _update_listeners (AimManager_init db_model_map) = [].
Proof.
  intros Hinj. split; [|done]. simpl. revert Hinj.
  apply (map_fold_weak_ind
           (fun (r : gmap DbClass ResourceClass)
                (m : gmap ResourceClass DbClass) =>
              (forall k1 k2 v, m !! k1 = Some v -> m !! k2 = Some v ->
                               k1 = k2) ->
              forall k v, r !! v = Some k <-> m !! k = Some v)).
  - intros _ k v. by rewrite !lookup_empty.
  - intros i x m r Hi IH Hinj k v.
    assert (forall k', m !! k' = Some x -> False) as Hfresh.
    { intros k' Hk'.
      assert (k' = i) as ->; [|congruence].
      apply (Hinj k' i x).
      - rewrite lookup_insert_ne; [done|congruence].
      - by rewrite lookup_insert_eq. }
    assert (forall k v, r !! v = Some k <-> m !! k = Some v) as IH'.
    { apply IH. intros k1 k2 v' H1 H2. apply (Hinj k1 k2 v').
      - rewrite lookup_insert_ne; [done|congruence].
      - rewrite lookup_insert_ne; [done|congruence]. }
    destruct (decide (x = v)) as [->|Hxv].
    + rewrite lookup_insert_eq. destruct (decide (i = k)) as [->|Hik].
      * by rewrite lookup_insert_eq.
      * rewrite lookup_insert_ne by done. split; [congruence|].
        intros Hk. by destruct (Hfresh k).
    + rewrite lookup_insert_ne by done. rewrite IH'.
      destruct (decide (i = k)) as [->|Hik].
      * rewrite lookup_insert_eq. split; congruence.
      * by rewrite lookup_insert_ne.
Qed.

(** ** Registering and unregistering listeners *)

Lemma list_remove_value_absent x l :
  x ∉ l -> list_remove_value x l = Raise ValueError.
Proof.
  induction l as [|y l IH]; [done|]. intros Hx.
  apply not_elem_of_cons in Hx as [Hne Hx]. simpl.
  rewrite decide_False by done. by rewrite IH.
Qed.

Lemma list_remove_value_present x l :
  x ∈ l ->
  exists l1 l2, l = l1 ++ x :: l2 /\ (x ∉ l1)
                /\ list_remove_value x l = Ok (l1 ++ l2).
Proof.
  induction l as [|y l IH]; [by intros ?%elem_of_nil|]. intros Hx. simpl.
  destruct (decide (y = x)) as [->|Hne].
  - exists [], l. split_and!; [done|apply not_elem_of_nil|done].
  - apply elem_of_cons in Hx as [->|Hx]; [done|].
    destruct (IH Hx) as (l1 & l2 & -> & Hl1 & ->).
    exists (y :: l1), l2. split_and!; [done| |done].
    apply not_elem_of_cons. split; [congruence|done].
Qed.

(** X17: [unregister_update_listener] raises [ValueError] exactly when the
    callable is not registered; otherwise it takes away the first of its
    registrations and keeps all the others in their order. *)
Theorem unregister_unknown_listener_raises self func :
  ((func ∉ _update_listeners self)
   /\ unregister_update_listener self func = Raise ValueError)
  \/ (exists l1 l2 self',
        _update_listeners self = l1 ++ func :: l2
        /\ (func ∉ l1)
        /\ unregister_update_listener self func = Ok self'
        /\ _update_listeners self' = l1 ++ l2
        /\ _db_model_map self' = _db_model_map self
        /\ _resource_map self' = _resource_map self).
Proof.
  unfold unregister_update_listener.
  destruct (decide (func ∈ _update_listeners self)) as [Hin|Hin].
  - right. destruct (list_remove_value_present _ _ Hin)
      as (l1 & l2 & Hl & Hl1 & ->).
    exists l1, l2. eexists. split_and!; [done|done|reflexivity|done..].
  - left. split; [done|]. by rewrite list_remove_value_absent.
Qed.

(** X18: unregistering a callable right after registering it succeeds and
    leaves it registered as many times as before; when it was not registered
    before, the manager is the one before the registration. *)
Theorem register_then_unregister self func :
  exists self',
    unregister_update_listener (register_update_listener self func) func
    = Ok self'
    /\ registrations self' func = registrations self func
    /\ (func ∉ _update_listeners self -> self' = self).
Proof.
  unfold unregister_update_listener, register_update_listener. simpl.
  destruct (list_remove_value func (_update_listeners self ++ [func]))
    as [l|e] eqn:Hl.
  - eexists. split; [reflexivity|]. split.
    + pose proof (list_remove_value_filter _ _ _ Hl) as Hlen.
      unfold registrations. simpl.
      rewrite filter_app, length_app in Hlen.
      rewrite filter_cons_True in Hlen by done. simpl in Hlen. lia.
    + intros Hnot. destruct self as [m r ls]. simpl in *. f_equal.
      assert (func ∈ ls ++ [func]) as Hin by set_solver.
      destruct (list_remove_value_present _ _ Hin)
        as (l1 & l2 & Heq & Hl1 & Hrem).
      rewrite Hrem in Hl. injection Hl as <-.
      assert (length l1 = length ls) as Hlen.
      { destruct (decide (length l1 < length ls)) as [Hlt|Hge].
        - exfalso. apply Hnot.
          assert ((ls ++ [func]) !! length l1 = Some func) as Hlook.
          { rewrite Heq. by apply list_lookup_middle. }
          rewrite lookup_app_l in Hlook by done.
          by eapply list_elem_of_lookup_2.
        - apply (f_equal length) in Heq.
          rewrite !length_app in Heq. simpl in Heq. lia. }
      apply app_inj_1 in Heq as [-> Heq]; [|done].
      injection Heq as <-. by rewrite app_nil_r.
  - exfalso.
    assert (func ∈ _update_listeners self ++ [func]) as Hin by set_solver.
    destruct (list_remove_value_present _ _ Hin) as (? & ? & _ & _ & Hrem).
    congruence.
Qed.

(** ** Create over an existing record, then get *)

(** X21: [get] after [create] with [overwrite=True] over an existing record
    returns a resource of the same type that agrees with the resource given
    to [create] on every declared attribute: the other attributes as they
    were written, [None] for those the resource lacked, and the identity
    attributes as they were. *)
Theorem create_overwrite_then_get self resource db_session i s1 t :
  _query_db_obj self resource db_session = Ok (Some i, s1) ->
  objects db_session !! i = Some t ->
  exists s' s'' found,
    create self resource true db_session = Ok (tt, s')
    /\ get self resource s' = Ok (Some found, s'')
    /\ res_type found = res_type resource
    /\ forall k,
         k ∈ other_attributes (res_type resource)
             ++ identity_attributes (res_type resource) ->
         getattr_default found k VNone = getattr_default resource k VNone.
Proof.
  intros Hq Hi.
  destruct (create_overwrite_found _ _ _ _ _ Hq)
    as (db_cls & t0 & Hreg & Hid & Hfind & Hcreate).
  apply query_db_obj_found in Hq as (db_cls' & _ & Hreg' & _ & Hconn & _ & _).
  assert (db_cls' = db_cls) as -> by congruence.
  pose proof Hfind as (Hi0 & Hmatch & Hfirst)%list_find_Some.
  assert (t0 = t) as -> by congruence.
  set (attr_val := getattr_default_dict resource
                     (other_attributes (res_type resource))) in *.
  assert (forall k v, identity_of resource !! k = Some v ->
                      column (from_attr attr_val (t_obj t)) k = v) as Hidcol.
  { intros k v Hk. rewrite column_from_attr. unfold attr_val.
    rewrite getattr_default_dict_lookup.
    destruct Hmatch as (_ & _ & Hvals).
    case_decide; [|by apply Hvals].
    unfold identity_of in Hk. apply map_lookup_filter_Some in Hk as [Hk _].
    unfold getattr_default. by rewrite Hk. }
  remember (overwritten_session db_cls resource i db_session) as s' eqn:Hs'.
  assert (objects s' = alter (touch attr_val) i (objects db_session)) as Hobjs.
  { subst s'. unfold overwritten_session. by rewrite with_hook_objects. }
  assert (connected s' = true) as Hconn'.
  { subst s'. unfold overwritten_session. by rewrite with_hook_connected. }
  assert (list_find (row_matches db_cls (identity_of resource)) (objects s')
          = Some (i, touch attr_val t)) as Hfind'.
  { rewrite Hobjs. apply list_find_Some. split_and!.
    - by rewrite list_lookup_alter_eq, Hi.
    - destruct Hmatch as (Hty & Hdel & Hvals). split_and!; [done..|].
      intros k v Hk. by apply Hidcol.
    - intros j y Hj Hlt.
      rewrite list_lookup_alter_ne in Hj by lia. by eapply Hfirst. }
  exists s'. eexists _, _. split; [exact Hcreate|]. split_and!.
  - unfold get.
    rewrite (bind_ok _ _ _ _ _ (lift_ok _ _ _ (validate_instance_ok _ _ _ Hreg))).
    rewrite (bind_ok _ _ _ _ _ (query_db_obj_ok _ _ _ s' Hreg Hid Hconn')).
    rewrite Hfind'. simpl. unfold bind. simpl.
    apply list_find_Some in Hfind' as (-> & _). reflexivity.
  - done.
  - intros k Hk. rewrite make_resource_getattr by done.
    destruct (decide (k ∈ other_attributes (res_type resource))) as [Ho|Ho].
    + simpl. rewrite column_from_attr. unfold attr_val.
      rewrite getattr_default_dict_lookup. by rewrite decide_True.
    + assert (k ∈ identity_attributes (res_type resource)) as Hk'
        by set_solver.
      unfold has_identity in Hid. rewrite Forall_forall in Hid.
      destruct (Hid k Hk') as [v Hv].
      assert (identity_of resource !! k = Some v) as Hidk.
      { unfold identity_of. by apply map_lookup_filter_Some. }
      simpl. rewrite (Hidcol k v Hidk).
      unfold getattr_default. by rewrite Hv.
Qed.

(** * The further properties at sample data *)

Lemma update_missing_changes_nothing_witness :
  exists s',
    update manager bd2 {[ "vrf_name" := VStr "vrf2" ]} bd1_session
    = Ok (tt, s')
    /\ objects s' = objects bd1_session
    /\ before_flush s' = before_flush bd1_session
    /\ history s'
       = history bd1_session
         ++ [SaBegin; SaQuery models_BridgeDomain (identity_of bd2)].
Proof.
  apply (update_missing_changes_nothing manager bd2 models_BridgeDomain
           {[ "vrf_name" := VStr "vrf2" ]} bd1_session).
  - reflexivity.
  - by_compute.
  - reflexivity.
  - by_compute.
  - by_compute.
Defined.

Lemma delete_missing_changes_nothing_witness :
  exists s',
    delete manager bd2 bd1_session = Ok (tt, s')
    /\ objects s' = objects bd1_session
    /\ before_flush s' = before_flush bd1_session
    /\ history s'
       = history bd1_session
         ++ [SaBegin; SaQuery models_BridgeDomain (identity_of bd2)].
Proof.
  apply (delete_missing_changes_nothing manager bd2 models_BridgeDomain
           bd1_session).
  - reflexivity.
  - by_compute.
  - reflexivity.
  - by_compute.
Defined.

Lemma delete_then_get_none_witness :
  exists s' s'',
    delete manager bd1_key bd1_session = Ok (tt, s')
    /\ get manager bd1_key s' = Ok (None, s'').
Proof.
  eapply (delete_then_get_none manager bd1_key bd1_session 0).
  - vm_compute. reflexivity.
  - reflexivity.
  - intros db_cls j t' _ Hj _. destruct j as [|j]; [reflexivity|].
    simpl in Hj. discriminate.
Defined.

Lemma find_results_meet_criteria_witness :
  res_type (_make_resource BridgeDomain (t_obj bd1_row)) = BridgeDomain
  /\ forall k v,
       ({[ "vrf_name" := VStr "vrf1"; "bogus" := VInt 1 ]}
          : gmap string value) !! k = Some v ->
       k ∈ other_attributes BridgeDomain
           ++ identity_attributes BridgeDomain ->
       getattr_default (_make_resource BridgeDomain (t_obj bd1_row)) k VNone
       = v.
Proof.
  apply (find_results_meet_criteria manager BridgeDomain
           {[ "vrf_name" := VStr "vrf1"; "bogus" := VInt 1 ]} bd1_session
           [_make_resource BridgeDomain (t_obj bd1_row)]
           (logged (SaQuery models_BridgeDomain {[ "vrf_name" := VStr "vrf1" ]})
                   bd1_session)).
  - vm_compute. reflexivity.
  - apply list_elem_of_here.
Defined.

Lemma find_without_criteria_returns_all_witness :
  exists s',
    find manager BridgeDomain ∅ two_rows_session
    = Ok (_make_resource BridgeDomain
            <$> (t_obj <$> filter (fun t => db_type (t_obj t)
                                            = models_BridgeDomain
                                            /\ t_deleted t = false)
                                  (objects two_rows_session)),
          s').
Proof.
  apply (find_without_criteria_returns_all manager BridgeDomain
           models_BridgeDomain two_rows_session).
  - reflexivity.
  - reflexivity.
Defined.

Lemma get_is_first_of_find_witness :
  exists rs s2,
    find manager (res_type bd1_key) (identity_of bd1_key) two_rows_session
    = Ok (_make_resource BridgeDomain (t_obj bd1_row) :: rs, s2).
Proof.
  eapply (get_is_first_of_find manager bd1_key two_rows_session).
  vm_compute. reflexivity.
Defined.

Lemma update_then_get_witness :
  exists s' s'' found,
    update manager bd1_key {[ "vrf_name" := VStr "vrf2" ]} bd1_session
    = Ok (tt, s')
    /\ get manager bd1_key s' = Ok (Some found, s'')
    /\ res_type found = res_type bd1_key
    /\ (forall k, k ∈ other_attributes (res_type bd1_key) ->
          getattr_default found k VNone
          = match ({[ "vrf_name" := VStr "vrf2" ]} : gmap string value) !! k
            with
            | Some v => v
            | None => column (t_obj bd1_row) k
            end)
    /\ (forall k, k ∈ identity_attributes (res_type bd1_key) ->
          getattr_default found k VNone = column (t_obj bd1_row) k).
Proof.
  eapply (update_then_get manager bd1_key _ bd1_session 0).
  - by_compute.
  - vm_compute. reflexivity.
  - reflexivity.
  - by_compute.
Defined.

Lemma update_with_undeclared_keys_only_witness :
  exists s',
    update manager bd1_key
      {[ "name" := VStr "other"; "bogus" := VInt 1 ]} bd1_session
    = Ok (tt, s')
    /\ objects s' = objects bd1_session
    /\ AimHook ∈ before_flush s'.
Proof.
  eapply (update_with_undeclared_keys_only manager bd1_key _ bd1_session 0).
  - by_compute.
  - vm_compute. reflexivity.
  - by_compute.
Defined.


Lemma create_does_not_overwrite_witness :
  create manager bd1 false bd1_session = Raise (DBError IntegrityError).
Proof.
  apply (create_does_not_overwrite manager bd1 models_BridgeDomain
           bd1_session).
  - reflexivity.
  - by_compute.
  - by_compute.
  - by_compute.
Defined.

Lemma translator_round_trip_witness :
  exists o,
    _make_db_obj manager bd1 = Ok o
    /\ res_type (_make_resource (res_type bd1) o) = res_type bd1
    /\ (forall k,
          k ∈ other_attributes (res_type bd1)
              ++ identity_attributes (res_type bd1) ->
          getattr_default (_make_resource (res_type bd1) o) k VNone
          = getattr_default bd1 k VNone)
    /\ (forall k,
          k ∉ other_attributes (res_type bd1)
              ++ identity_attributes (res_type bd1) ->
          res_dict (_make_resource (res_type bd1) o) !! k = None)
    /\ _make_db_obj manager (_make_resource (res_type bd1) o) = Ok o.
Proof.
  apply (translator_round_trip manager bd1).
  - exists models_BridgeDomain. reflexivity.
  - by_compute.
Defined.

Lemma init_inverts_the_model_map_witness :
  (forall k v,
     _resource_map manager !! v = Some k
     <-> AimManager_db_model_map BridgeDomain models_BridgeDomain !! k
         = Some v)
  /\ _update_listeners manager = [].
Proof.
  apply (init_inverts_the_model_map
           (AimManager_db_model_map BridgeDomain models_BridgeDomain)).
  intros k1 k2 v H1 H2. unfold AimManager_db_model_map in *.
  apply lookup_singleton_Some in H1 as [<- _].
  apply lookup_singleton_Some in H2 as [<- _]. reflexivity.
Defined.

Lemma create_overwrite_then_get_witness :
  exists s' s'' found,
    create manager bd1_key true bd1_session = Ok (tt, s')
    /\ get manager bd1_key s' = Ok (Some found, s'')
    /\ res_type found = res_type bd1_key
    /\ forall k,
         k ∈ other_attributes (res_type bd1_key)
             ++ identity_attributes (res_type bd1_key) ->
         getattr_default found k VNone = getattr_default bd1_key k VNone.
Proof.
  eapply (create_overwrite_then_get manager bd1_key bd1_session 0).
  - vm_compute. reflexivity.
  - reflexivity.
Defined.
